(** * LoRAPrune, unlearning trainer: [loraprune/trainer_ul.py]

    A shallow embedding of [LoRAPruneTrainer._inner_training_loop] and of
    the pruning engine it drives.

    Conventions.
    - Python [int] is [Z]; [%] is Python's floor modulo and raises
      [ZeroDivisionError] on a zero divisor.
    - Python [float] ratios and scores are rationals [Q]; comparisons are
      the exact ones.
    - A [dict] keyed by parameter-group name is a [gmap string _].
    - The helpers of [loraprune.utils] and [loraprune.utils_ul], the
      optimizer, the learning-rate scheduler and the callback handler are
      collaborators of the loop: they are parameters of the development,
      and every call the loop makes to one of them is recorded in a call
      log carried by the loop state. *)

From Stdlib Require Import ZArith QArith Qround Lqa Lia.
From stdpp Require Import gmap strings list fin_maps.

#[local] Open Scope Z_scope.

(** ** Outcomes of Python code *)

Inductive exn : Type :=
| ZeroDivisionError
| KeyError (name : string)
| UnboundLocalError (name : string)
| UnknownMetric
| MissingGradient
| InvalidSchedule
| InconsistentShapes.

Inductive result (A : Type) : Type :=
| Ok (a : A)
| Raise (e : exn).

Arguments Ok {A} a.
Arguments Raise {A} e.

Definition bind {A B : Type} (r : result A) (k : A -> result B) : result B :=
  match r with
  | Ok a => k a
  | Raise e => Raise e
  end.

Notation "'let*' x ':=' r 'in' k" := (bind r (fun x => k))
  (at level 10, x name, r at level 100, k at level 200).

Definition succeeds {A : Type} (r : result A) : bool :=
  match r with Ok _ => true | Raise _ => false end.

(** [holds r P]: [r] is a result and [P] holds of it. *)
Definition holds {A : Type} (r : result A) (P : A -> Prop) : Prop :=
  match r with Ok a => P a | Raise _ => False end.

(** [a % b] *)
Definition py_mod (a b : Z) : result Z :=
  if b =? 0 then Raise ZeroDivisionError else Ok (a mod b).

(** [a < b] and [a <= b] on floats *)
Definition Qltb (a b : Q) : bool :=
  match (a ?= b)%Q with
  | Lt => true
  | _ => false
  end.

Definition Qleb (a b : Q) : bool :=
  match (a ?= b)%Q with
  | Gt => false
  | _ => true
  end.

(** ** Configuration read by the loop

    The first group are the attributes stored by
    [LoRAPruneTrainer.__init__]; the second group are the fields of
    [self.args] and of the trainer that the loop body reads. *)

Record Config : Type := {
  ratio : Q;
  init_ratio : Q;
  warmup_iters : Q;
  cooldown_iters : Q;
  prune_freq : Z;
  prune_metric : string;
  unlearning_threshold : Q;
  gradient_accumulation_steps : Z;
  max_grad_norm : option Q;
  deepspeed : bool
}.

(** The two data streams of an epoch. *)
Inductive Stream : Type :=
| Forget
| Retain.

(** Calls made by the loop to its collaborators. *)
Inductive Call : Type :=
| unfreeze_call
| init_sensitivity_dict_call
| training_step_call (stream : Stream)
| deepspeed_step_call
| clip_grad_norm_call
| update_sensitivity_dict_call (stream : Stream)
| schedule_sparsity_ratio_call (step : Z)
| compute_dual_sensitivity_call (name : string)
| unlearning_prune_call (target threshold : Q)
| optimizer_step_call
| lr_scheduler_step_call
| zero_grad_call.

Definition is_unfreeze (c : Call) : bool :=
  match c with unfreeze_call => true | _ => false end.

Definition is_training_step (c : Call) : bool :=
  match c with training_step_call _ => true | _ => false end.

Definition is_optimizer_step (c : Call) : bool :=
  match c with optimizer_step_call => true | _ => false end.

Definition is_lr_scheduler_step (c : Call) : bool :=
  match c with lr_scheduler_step_call => true | _ => false end.

Definition is_schedule (c : Call) : bool :=
  match c with schedule_sparsity_ratio_call _ => true | _ => false end.

Definition is_combine (c : Call) : bool :=
  match c with compute_dual_sensitivity_call _ => true | _ => false end.

Definition is_prune (c : Call) : bool :=
  match c with unlearning_prune_call _ _ => true | _ => false end.

(** The calls of each part of a boundary step, as the configuration
    decides them. *)

Definition clip_calls (cfg : Config) : list Call :=
  match max_grad_norm cfg with
  | Some g =>
      if Qltb 0 g && negb (deepspeed cfg) then [clip_grad_norm_call] else []
  | None => []
  end.

Definition update_calls (cfg : Config) (stream : Stream) : list Call :=
  if deepspeed cfg then [] else [update_sensitivity_dict_call stream].

Definition optimizer_calls (cfg : Config) : list Call :=
  optimizer_step_call
    :: (if negb (deepspeed cfg) then [lr_scheduler_step_call] else []).

(** The calls each stream of an epoch can make. *)
Definition forget_stream_call (c : Call) : bool :=
  match c with
  | training_step_call Forget
  | deepspeed_step_call
  | clip_grad_norm_call
  | update_sensitivity_dict_call Forget
  | schedule_sparsity_ratio_call _
  | zero_grad_call => true
  | _ => false
  end.

Definition retain_stream_call (c : Call) : bool :=
  match c with
  | training_step_call Retain
  | deepspeed_step_call
  | clip_grad_norm_call
  | update_sensitivity_dict_call Retain
  | schedule_sparsity_ratio_call _
  | compute_dual_sensitivity_call _
  | unlearning_prune_call _ _
  | optimizer_step_call
  | lr_scheduler_step_call
  | zero_grad_call => true
  | _ => false
  end.

Definition epoch_call (c : Call) : bool :=
  forget_stream_call c || retain_stream_call c.

(** The step arguments of the calls to the scheduler, in order. *)
Definition schedule_steps (l : list Call) : list Z :=
  omap (fun c => match c with
                 | schedule_sparsity_ratio_call step => Some step
                 | _ => None
                 end) l.

(** Number of calls of a kind in a log. *)
Definition count_calls (p : Call -> bool) (l : list Call) : nat :=
  length (List.filter p l).

(** [self.state]: the part of [TrainerState] the loop reads and writes. *)
Record TrainerState : Type := {
  global_step : Z;
  max_steps : Z
}.

(** ** Collaborators of the loop

    The model, its batches and the values stored in the sensitivity
    dicts are opaque to the trainer.  [utils.update_sensitivity_dict],
    [utils.schedule_sparsity_ratio] and [utils_ul.unlearning_prune] can
    raise; the others are total.  [should_epoch_stop] and
    [should_training_stop] are the flags of [self.control] as the callback
    handler leaves them after a step. *)

Class Collaborators : Type := {
  Model : Type;
  Batch : Type;
  Sens : Type;
  Dual : Type;
  parameter_groups : Model -> list string;
  zeros : Sens;
  unfreeze : Model -> Model;
  training_step : Model -> Batch -> Model;
  deepspeed_step : Model -> Model;
  clip_grad_norm_ : Model -> Q -> Model;
  update_sensitivity_dict :
    Model -> gmap string Sens -> string -> result (gmap string Sens);
  schedule_sparsity_ratio : Z -> Z -> Q -> Q -> Q -> Q -> result Q;
  compute_dual_sensitivity : Sens -> Sens -> Dual;
  unlearning_prune : Model -> gmap string Dual -> Q -> Q -> result Model;
  optimizer_step : Model -> Model;
  zero_grad : Model -> Model;
  should_epoch_stop : TrainerState -> bool;
  should_training_stop : TrainerState -> bool
}.

Section TrainingLoop.
Context {C : Collaborators}.

(** The variables of [_inner_training_loop] that live across
    iterations, and the log of calls made so far. *)
Record Loop : Type := {
  model : Model;
  forget_sensitivity_dict : gmap string Sens;
  retain_sensitivity_dict : gmap string Sens;
  state : TrainerState;
  total_batched_samples : Z;
  calls : list Call
}.

Definition call_all (cs : list Call) (s : Loop) : Loop :=
  {| model := model s;
     forget_sensitivity_dict := forget_sensitivity_dict s;
     retain_sensitivity_dict := retain_sensitivity_dict s;
     state := state s;
     total_batched_samples := total_batched_samples s;
     calls := calls s ++ cs |}.

Definition call (c : Call) (s : Loop) : Loop := call_all [c] s.

Definition set_model (m : Model) (s : Loop) : Loop :=
  {| model := m;
     forget_sensitivity_dict := forget_sensitivity_dict s;
     retain_sensitivity_dict := retain_sensitivity_dict s;
     state := state s;
     total_batched_samples := total_batched_samples s;
     calls := calls s |}.

Definition set_forget (d : gmap string Sens) (s : Loop) : Loop :=
  {| model := model s;
     forget_sensitivity_dict := d;
     retain_sensitivity_dict := retain_sensitivity_dict s;
     state := state s;
     total_batched_samples := total_batched_samples s;
     calls := calls s |}.

Definition set_retain (d : gmap string Sens) (s : Loop) : Loop :=
  {| model := model s;
     forget_sensitivity_dict := forget_sensitivity_dict s;
     retain_sensitivity_dict := d;
     state := state s;
     total_batched_samples := total_batched_samples s;
     calls := calls s |}.

(** [self.state.global_step += 1] *)
Definition incr_global_step (s : Loop) : Loop :=
  {| model := model s;
     forget_sensitivity_dict := forget_sensitivity_dict s;
     retain_sensitivity_dict := retain_sensitivity_dict s;
     state := {| global_step := global_step (state s) + 1;
                 max_steps := max_steps (state s) |};
     total_batched_samples := total_batched_samples s;
     calls := calls s |}.

(** [total_batched_samples += 1] *)
Definition incr_total_batched_samples (s : Loop) : Loop :=
  {| model := model s;
     forget_sensitivity_dict := forget_sensitivity_dict s;
     retain_sensitivity_dict := retain_sensitivity_dict s;
     state := state s;
     total_batched_samples := total_batched_samples s + 1;
     calls := calls s |}.

(** Modelled from the spec: [utils.init_sensitivity_dict] is not part
    of the sources at hand; the spec has the sensitivity dicts
    "created once per training run (zero-initialized over all
    ParameterGroups)". *)
Definition init_sensitivity_dict (m : Model) : gmap string Sens :=
  list_to_map ((fun name => (name, zeros)) <$> parameter_groups m).

(** Lines 227-232: what happens between the set-up of the trainer state
    and the first epoch. *)
Definition setup (cfg : Config) (m : Model) (st : TrainerState) : Loop :=
  let s0 := {| model := m;
               forget_sensitivity_dict := ∅;
               retain_sensitivity_dict := ∅;
               state := st;
               total_batched_samples := 0;
               calls := [] |} in
  let s1 := if String.eqb (prune_metric cfg) "grad"
            then call unfreeze_call (set_model (unfreeze (model s0)) s0)
            else s0 in
  let s2 := call init_sensitivity_dict_call
              (set_forget (init_sensitivity_dict (model s1)) s1) in
  call init_sensitivity_dict_call
    (set_retain (init_sensitivity_dict (model s2)) s2).

(** Lines 289-293 and 375-379: is this batch the last of an
    accumulation group? *)
Definition accumulation_boundary (cfg : Config)
    (total step steps_in_epoch : Z) : result bool :=
  let* r := py_mod total (gradient_accumulation_steps cfg) in
  Ok ((r =? 0)
      || ((steps_in_epoch <=? gradient_accumulation_steps cfg)
          && (step + 1 =? steps_in_epoch))).

(** Lines 295-314 and 381-400: gradient clipping. *)
Definition clip_gradients (cfg : Config) (s : Loop) : Loop :=
  match max_grad_norm cfg with
  | Some g =>
      if Qltb 0 g && negb (deepspeed cfg)
      then call clip_grad_norm_call (set_model (clip_grad_norm_ (model s) g) s)
      else s
  | None => s
  end.

(** Lines 340 and 439: the call to [_maybe_log_save_evaluate] reads the
    local variable [grad_norm], which only the clipping block assigns;
    whether that block runs is the same at every boundary of a run. *)
Definition grad_norm_argument (cfg : Config) : result unit :=
  match max_grad_norm cfg with
  | Some g =>
      if Qltb 0 g && negb (deepspeed cfg) then Ok tt
      else Raise (UnboundLocalError "grad_norm")
  | None => Raise (UnboundLocalError "grad_norm")
  end.

(** Lines 319-321 and 405-407. *)
Definition scheduled_ratio (cfg : Config) (s : Loop) : result (Q * Loop) :=
  let* target :=
    schedule_sparsity_ratio (global_step (state s)) (max_steps (state s))
      (warmup_iters cfg) (cooldown_iters cfg) (init_ratio cfg) (ratio cfg) in
  Ok (target, call (schedule_sparsity_ratio_call (global_step (state s))) s).

(** Lines 316-318. *)
Definition update_forget (cfg : Config) (s : Loop) : result Loop :=
  if deepspeed cfg then Ok s
  else
    let* d := update_sensitivity_dict (model s) (forget_sensitivity_dict s)
                (prune_metric cfg) in
    Ok (call (update_sensitivity_dict_call Forget) (set_forget d s)).

(** Lines 402-404. *)
Definition update_retain (cfg : Config) (s : Loop) : result Loop :=
  if deepspeed cfg then Ok s
  else
    let* d := update_sensitivity_dict (model s) (retain_sensitivity_dict s)
                (prune_metric cfg) in
    Ok (call (update_sensitivity_dict_call Retain) (set_retain d s)).

(** Lines 316-338: the body run at an accumulation boundary of the
    forget stream.  The calls to the optimizer and to the learning-rate
    scheduler are commented out in the source.  The value given to
    [state.epoch] at line 337 is [epoch_progress] below. *)
Definition forget_boundary (cfg : Config) (s : Loop) : result Loop :=
  let s := clip_gradients cfg s in
  let* s := update_forget cfg s in
  let* p := scheduled_ratio cfg s in
  let '(_, s) := p in
  let s := call zero_grad_call (set_model (zero_grad (model s)) s) in
  Ok (incr_global_step s).

(** Line 409: the condition guarding the pruning block. *)
Definition prune_gate (cfg : Config) (step : Z) (target : Q) : result bool :=
  let* r := py_mod step (prune_freq cfg) in
  Ok ((r =? 0) && Qltb (init_ratio cfg) target && Qltb target (ratio cfg)).

(** Lines 411-416: [dual_sensitivity = {}] filled by the loop over
    [forget_sensitivity_dict.keys()]; [retain_sensitivity_dict[name]]
    raises [KeyError] on a name it does not hold. *)
Fixpoint dual_sensitivity_loop (items : list (string * Sens))
    (retain : gmap string Sens) (dual_sensitivity : gmap string Dual)
    (log : list Call) : result (gmap string Dual * list Call) :=
  match items with
  | [] => Ok (dual_sensitivity, log)
  | (name, f) :: rest =>
      match retain !! name with
      | None => Raise (KeyError name)
      | Some r =>
          dual_sensitivity_loop rest retain
            (<[name := compute_dual_sensitivity f r]> dual_sensitivity)
            (log ++ [compute_dual_sensitivity_call name])
      end
  end.

Definition compute_dual (forget retain : gmap string Sens)
    : result (gmap string Dual * list Call) :=
  dual_sensitivity_loop (map_to_list forget) retain ∅ [].

(** Lines 409-424. *)
Definition prune_block (cfg : Config) (target : Q) (s : Loop) : result Loop :=
  let* go := prune_gate cfg (global_step (state s)) target in
  if go then
    let* p := compute_dual (forget_sensitivity_dict s)
                (retain_sensitivity_dict s) in
    let '(dual_sensitivity, log) := p in
    let* m := unlearning_prune (model s) dual_sensitivity target
                (unlearning_threshold cfg) in
    Ok (call (unlearning_prune_call target (unlearning_threshold cfg))
          (set_model m (call_all log s)))
  else Ok s.

(** Lines 426-432. *)
Definition optimizer_and_scheduler (cfg : Config) (s : Loop) : Loop :=
  let s := call optimizer_step_call (set_model (optimizer_step (model s)) s) in
  if negb (deepspeed cfg) then call lr_scheduler_step_call s else s.

(** Lines 402-437: the body run at an accumulation boundary of the
    retain stream.  The value given to [state.epoch] at line 436 is
    [epoch_progress] below; line 439 follows in [retain_iteration]. *)
Definition retain_boundary (cfg : Config) (s : Loop) : result Loop :=
  let s := clip_gradients cfg s in
  let* s := update_retain cfg s in
  let* p := scheduled_ratio cfg s in
  let '(target, s) := p in
  let* s := prune_block cfg target s in
  let s := optimizer_and_scheduler cfg s in
  let s := call zero_grad_call (set_model (zero_grad (model s)) s) in
  Ok (incr_global_step s).

(** Lines 267-287 and 349-373: the part of an iteration before the
    boundary test.  [step % args.gradient_accumulation_steps] guards the
    [on_step_begin] callback. *)
Definition run_training_step (cfg : Config) (stream : Stream) (step : Z)
    (inputs : Batch) (s : Loop) : result Loop :=
  let s := incr_total_batched_samples s in
  let* _ := py_mod step (gradient_accumulation_steps cfg) in
  let s := call (training_step_call stream)
             (set_model (training_step (model s) inputs) s) in
  Ok (if deepspeed cfg
      then call deepspeed_step_call (set_model (deepspeed_step (model s)) s)
      else s).

(** One iteration of [for step, inputs in enumerate(forget_dataloader)]. *)
Definition forget_iteration (cfg : Config) (steps_in_epoch step : Z)
    (inputs : Batch) (s : Loop) : result Loop :=
  let* s := run_training_step cfg Forget step inputs s in
  let* b := accumulation_boundary cfg (total_batched_samples s) step
              steps_in_epoch in
  if b then
    let* s := forget_boundary cfg s in
    let* _ := grad_norm_argument cfg in
    Ok s
  else Ok s.

(** One iteration of [for step, inputs in enumerate(train_dataloader)]. *)
Definition retain_iteration (cfg : Config) (steps_in_epoch step : Z)
    (inputs : Batch) (s : Loop) : result Loop :=
  let* s := run_training_step cfg Retain step inputs s in
  let* b := accumulation_boundary cfg (total_batched_samples s) step
              steps_in_epoch in
  if b then
    let* s := retain_boundary cfg s in
    let* _ := grad_norm_argument cfg in
    Ok s
  else Ok s.

(** [for step, inputs in enumerate(...)] with the [break] of lines
    344-345 and 443-444. *)
Fixpoint enumerate_loop (body : Z -> Batch -> Loop -> result Loop)
    (step : Z) (batches : list Batch) (s : Loop) : result Loop :=
  match batches with
  | [] => Ok s
  | inputs :: rest =>
      let* s := body step inputs s in
      if should_epoch_stop (state s) || should_training_stop (state s)
      then Ok s
      else enumerate_loop body (step + 1) rest s
  end.

(** Lines 251-444: one epoch over data loaders that have a length, the
    forget stream first (when there is a forget dataset), then the retain
    stream. *)
Definition run_epoch (cfg : Config) (forget_dataloader : option (list Batch))
    (train_dataloader : list Batch) (s : Loop) : result Loop :=
  let steps_in_epoch := Z.of_nat (length train_dataloader) in
  let* s :=
    match forget_dataloader with
    | Some batches =>
        enumerate_loop (forget_iteration cfg steps_in_epoch) 0 batches s
    | None => Ok s
    end in
  enumerate_loop (retain_iteration cfg steps_in_epoch) 0 train_dataloader s.

(** Lines 234-458: [for epoch in range(epochs_trained, num_train_epochs)];
    the data loaders give the batches of each epoch. *)
Fixpoint run_epochs (cfg : Config)
    (forget_dataloader : option (nat -> list Batch))
    (train_dataloader : nat -> list Batch)
    (remaining epoch : nat) (s : Loop) : result Loop :=
  match remaining with
  | O => Ok s
  | S remaining =>
      let* s := run_epoch cfg ((fun f => f epoch) <$> forget_dataloader)
                  (train_dataloader epoch) s in
      if should_training_stop (state s) then Ok s
      else run_epochs cfg forget_dataloader train_dataloader remaining
             (S epoch) s
  end.

(** The training run from line 227 on, with no checkpoint to resume. *)
Definition train (cfg : Config) (m : Model) (st : TrainerState)
    (forget_dataloader : option (nat -> list Batch))
    (train_dataloader : nat -> list Batch) (num_train_epochs : nat)
    : result Loop :=
  run_epochs cfg forget_dataloader train_dataloader num_train_epochs O
    (setup cfg m st).

(** The calls made between two loop states. *)
Definition emitted (s s' : Loop) : list Call :=
  drop (length (calls s)) (calls s').

(** [extends ok s s']: the run from [s] to [s'] only added calls accepted
    by [ok]; the scheduler was asked once per increment of
    [global_step], with the successive values of the counter. *)

Definition extends (ok : Call -> bool) (s s' : Loop) : Prop :=
  exists l : list Call,
    calls s' = calls s ++ l
    /\ forallb ok l = true
    /\ global_step (state s) <= global_step (state s')
    /\ max_steps (state s') = max_steps (state s)
    /\ schedule_steps l
       = seqZ (global_step (state s))
           (global_step (state s') - global_step (state s)).

End TrainingLoop.

(** ** RatioScheduler *)

Module RatioScheduler.

(** Modelled from the spec: [utils.schedule_sparsity_ratio] is not part
    of the sources at hand.  Section 4.2 of the spec: with
    [p = step / max_steps], the ratio is [init_ratio] while
    [p < warmup_frac], [final_ratio] once [p >= 1 - cooldown_frac], and
    in between rises from [init_ratio] to [final_ratio] (the linear
    interpolation is taken here); when
    [warmup_frac + cooldown_frac >= 1] every [p >= warmup_frac] gives
    [final_ratio]; [max_steps <= 0] fails with [InvalidSchedule]. *)
Definition ratio_at (step max_steps : Z)
    (warmup_frac cooldown_frac init_ratio final_ratio : Q) : result Q :=
  if max_steps <=? 0 then Raise InvalidSchedule
  else
    let p := (inject_Z step / inject_Z max_steps)%Q in
    if Qltb p warmup_frac then Ok init_ratio
    else if Qleb 1 (warmup_frac + cooldown_frac) then Ok final_ratio
    else if Qltb p (1 - cooldown_frac) then
      Ok (init_ratio
          + (final_ratio - init_ratio)
            * ((p - warmup_frac) / (1 - cooldown_frac - warmup_frac)))%Q
    else Ok final_ratio.

End RatioScheduler.

(** ** DualSensitivityCombiner *)

Module DualSensitivityCombiner.

Definition eps : Q := 1 # 1000000.

(** Modelled from the spec: [utils_ul.compute_dual_sensitivity] is not
    part of the sources at hand.  Section 4.3 of the spec gives
    [forget_value / (retain_value + eps)] as the form of the score. *)
Definition combine (forget_value retain_value : Q) : Q :=
  (forget_value / (retain_value + eps))%Q.

End DualSensitivityCombiner.

(** ** PruningApplicator *)

Module PruningApplicator.

(** The prunable units of the model and the sticky set of those already
    pruned. *)
Record PruningState : Type := {
  groups : list string;
  pruned : gset string
}.

Record PruningDecision : Type := {
  achieved_ratio : Q;
  newly_pruned : list string
}.

(** Ranking by dual score, highest first. *)
Fixpoint insert_ranked (x : string * Q) (l : list (string * Q))
    : list (string * Q) :=
  match l with
  | [] => [x]
  | y :: rest =>
      if Qleb (snd y) (snd x) then x :: y :: rest
      else y :: insert_ranked x rest
  end.

Fixpoint rank (l : list (string * Q)) : list (string * Q) :=
  match l with
  | [] => []
  | x :: rest => insert_ranked x (rank rest)
  end.

(** Walk the ranking and take the elements whose score exceeds the
    threshold until [needed] of them are taken; an element failing the
    threshold is skipped. *)
Fixpoint select (ranked : list (string * Q)) (threshold : Q) (needed : nat)
    {struct ranked} : list string :=
  match ranked with
  | [] => []
  | (name, score) :: rest =>
      match needed with
      | O => []
      | S n =>
          if Qltb threshold score then name :: select rest threshold n
          else select rest threshold needed
      end
  end.

(** Number of elements that have to be pruned for the global sparsity
    to reach [target_ratio]. *)
Definition needed_elements (total already : nat) (target_ratio : Q) : nat :=
  Z.to_nat (Qceiling (target_ratio * inject_Z (Z.of_nat total))
            - Z.of_nat already).

Definition sparsity (count total : nat) : Q :=
  if (total =? 0)%nat then 0%Q
  else (inject_Z (Z.of_nat count) / inject_Z (Z.of_nat total))%Q.

(** Modelled from the spec: [utils_ul.unlearning_prune] is not part of
    the sources at hand.  Section 4.4 of the spec, selection algorithm:
    "rank all currently-unpruned elements across all ParameterGroups by
    dual score descending; prune the top elements needed to bring
    global sparsity from current_ratio up to target_ratio, subject to
    the per-element threshold gate", the mask being sticky; it fails
    with [InconsistentShapes] when the keys of the scores are not the
    model's parameter groups. *)
Definition unlearning_prune (st : PruningState) (dual_scores : gmap string Q)
    (target_ratio threshold : Q) : result (PruningState * PruningDecision) :=
  if bool_decide (dom dual_scores = list_to_set (groups st)) then
    let total := size (dom dual_scores) in
    let unpruned :=
      filter (fun x => fst x ∉ pruned st) (map_to_list dual_scores) in
    let selected :=
      select (rank unpruned) threshold
        (needed_elements total (size (pruned st)) target_ratio) in
    Ok ({| groups := groups st;
           pruned := pruned st ∪ list_to_set selected |},
        {| achieved_ratio :=
             sparsity (size (pruned st) + length selected) total;
           newly_pruned := selected |})
  else Raise InconsistentShapes.

End PruningApplicator.

(** ** Around the loop: set-up arithmetic, resumption, wrap-up *)

(** [a // b] *)
Definition py_floordiv (a b : Z) : result Z :=
  if b =? 0 then Raise ZeroDivisionError else Ok (a / b).

(** The exception a computation raises, if it raises. *)
Definition raises {A : Type} (r : result A) : option exn :=
  match r with Ok _ => None | Raise e => Some e end.

(** The condition of lines 295 and 381 under which gradients are clipped
    and [grad_norm] is assigned. *)
Definition clipping_enabled (cfg : Config) : bool :=
  match max_grad_norm cfg with
  | Some g => Qltb 0 g && negb (deepspeed cfg)
  | None => false
  end.

(** The calls of an iteration that is not an accumulation boundary. *)
Definition substep_call (c : Call) : bool :=
  match c with
  | training_step_call _ | deepspeed_step_call => true
  | _ => false
  end.

Definition is_training_step_of (stream : Stream) (c : Call) : bool :=
  match c, stream with
  | training_step_call Forget, Forget => true
  | training_step_call Retain, Retain => true
  | _, _ => false
  end.

(** The fields of [self.args] read by lines 96-132. *)
Record TrainingArguments : Type := {
  train_batch_size : Z;
  world_size : Z;
  args_max_steps : Z;
  args_num_train_epochs : Q
}.

(** What lines 87-111 learn from the data loaders: the length of each
    one when [has_length] holds of it ([forget_length] is [None] when
    there is no forget dataset), and the example counts returned by
    [self.num_examples]. *)
Record Dataloaders : Type := {
  train_length : option nat;
  forget_length : option (option nat);
  retain_examples : nat;
  forget_examples : nat
}.

(** The training control variables set by lines 96-132. *)
Record TrainingControl : Type := {
  total_train_batch_size : Z;
  len_dataloader : option Z;
  num_update_steps_per_epoch : Z;
  control_max_steps : Z;
  num_train_epochs : Z;
  num_examples : Z;
  num_train_samples : Q
}.

Inductive control_outcome : Type :=
| Control (c : TrainingControl)
| ControlRaises (e : exn)
| ControlValueError.

(** [sys.maxsize] *)
Definition sys_maxsize : Z := 9223372036854775807.

(** [has_length(train_dataloader) and (forget_dataloader is None or
    has_length(forget_dataloader))], with the two lengths when it holds. *)
Definition known_lengths (d : Dataloaders) : option (Z * Z) :=
  match train_length d with
  | Some retain_len =>
      match forget_length d with
      | None => Some (0, Z.of_nat retain_len)
      | Some (Some forget_len) => Some (Z.of_nat forget_len, Z.of_nat retain_len)
      | Some None => None
      end
  | None => None
  end.

(** Lines 96-132. *)
Definition training_control (cfg : Config) (args : TrainingArguments)
    (d : Dataloaders) : control_outcome :=
  let total := train_batch_size args * gradient_accumulation_steps cfg
               * world_size args in
  match known_lengths d with
  | Some (forget_len, retain_len) =>
      let len := forget_len + retain_len in
      match py_floordiv len (gradient_accumulation_steps cfg) with
      | Raise e => ControlRaises e
      | Ok q =>
          let n := Z.max q 1 in
          let examples :=
            (match forget_length d with
             | Some _ => Z.of_nat (forget_examples d)
             | None => 0
             end) + Z.of_nat (retain_examples d) in
          if 0 <? args_max_steps args then
            Control {| total_train_batch_size := total;
                       len_dataloader := Some len;
                       num_update_steps_per_epoch := n;
                       control_max_steps := args_max_steps args;
                       num_train_epochs :=
                         args_max_steps args / n
                         + (if 0 <? args_max_steps args mod n then 1 else 0);
                       num_examples := examples;
                       num_train_samples :=
                         inject_Z (args_max_steps args * total) |}
          else
            Control {| total_train_batch_size := total;
                       len_dataloader := Some len;
                       num_update_steps_per_epoch := n;
                       control_max_steps :=
                         Qceiling (args_num_train_epochs args * inject_Z n);
                       num_train_epochs := Qceiling (args_num_train_epochs args);
                       num_examples := examples;
                       num_train_samples :=
                         (inject_Z examples * args_num_train_epochs args)%Q |}
      end
  | None =>
      if 0 <? args_max_steps args then
        Control {| total_train_batch_size := total;
                   len_dataloader := None;
                   num_update_steps_per_epoch := args_max_steps args;
                   control_max_steps := args_max_steps args;
                   num_train_epochs := sys_maxsize;
                   num_examples := total * args_max_steps args;
                   num_train_samples :=
                     inject_Z (args_max_steps args * total) |}
      else ControlValueError
  end.

(** Lines 188-194: where a run resumed from a checkpoint stands,
    [(epochs_trained, steps_trained_in_current_epoch)]. *)
Definition resume_position (cfg : Config) (ignore_data_skip : bool)
    (saved_global_step per_epoch : Z) : result (Z * Z) :=
  let* epochs_trained := py_floordiv saved_global_step per_epoch in
  if negb ignore_data_skip then
    let* r := py_mod saved_global_step per_epoch in
    Ok (epochs_trained, r * gradient_accumulation_steps cfg)
  else Ok (epochs_trained, 0).

(** Lines 337 and 436: [epoch + (step + 1 + steps_skipped) / steps_in_epoch],
    where [steps_skipped] is never set to anything but 0 (line 262). *)
Definition epoch_progress (epoch step steps_in_epoch : Z) : result Q :=
  let steps_skipped := 0 in
  if steps_in_epoch =? 0 then Raise ZeroDivisionError
  else Ok (inject_Z epoch
           + inject_Z (step + 1 + steps_skipped) / inject_Z steps_in_epoch)%Q.

Section AroundTheLoop.
Context {C : Collaborators}.

(** Lines 470-496: the loss reported by the run and the [TrainOutput]
    built from it, given the sum of the logged losses. *)
Definition train_output (total_loss_scalar : Q) (s : Loop) : result (Z * Q) :=
  if global_step (state s) =? 0 then Raise ZeroDivisionError
  else Ok (global_step (state s),
           (total_loss_scalar / inject_Z (global_step (state s)))%Q).

(** Lines 234-458 for a run resumed at [epochs_trained]:
    [for epoch in range(epochs_trained, num_train_epochs)]. *)
Definition resumed_epochs (cfg : Config)
    (forget_dataloader : option (nat -> list Batch))
    (train_dataloader : nat -> list Batch)
    (epochs_trained num_epochs : nat) (s : Loop) : result Loop :=
  run_epochs cfg forget_dataloader train_dataloader
    (num_epochs - epochs_trained) epochs_trained s.

(** [progress cfg f r s s']: the run from [s] to [s'] took [f] training
    steps on forget batches and [r] on retain batches, counted every one
    of them in [total_batched_samples], and moved [global_step] by at most
    one per batch: by exactly one per batch when there is no gradient
    accumulation, and not at all when gradient clipping is off, in which
    case only training steps were logged. *)
Definition progress (cfg : Config) (forget_steps retain_steps : nat)
    (s s' : Loop) : Prop :=
  exists l : list Call,
    calls s' = calls s ++ l
    /\ count_calls (is_training_step_of Forget) l = forget_steps
    /\ count_calls (is_training_step_of Retain) l = retain_steps
    /\ total_batched_samples s'
       = total_batched_samples s + Z.of_nat (forget_steps + retain_steps)
    /\ global_step (state s) <= global_step (state s')
    /\ global_step (state s')
       <= global_step (state s) + Z.of_nat (forget_steps + retain_steps)
    /\ (gradient_accumulation_steps cfg = 1 ->
        global_step (state s')
        = global_step (state s) + Z.of_nat (forget_steps + retain_steps))
    /\ (clipping_enabled cfg = false ->
        global_step (state s') = global_step (state s)
        /\ forallb substep_call l = true).

End AroundTheLoop.

(** ** A concrete engine

    The collaborators instantiated with the modelled engine, on which the
    loop can be run: the model is the pruning state together with the
    gradient magnitudes accumulated per parameter group, a batch is the
    gradient magnitudes it contributes, and the tracker adds the
    accumulated magnitudes to the sensitivity values. *)

Module Engine.

Record EngineModel : Type := {
  pruning : PruningApplicator.PruningState;
  grads : gmap string Q
}.

Definition accumulate (m : EngineModel) (inputs : gmap string Q) : EngineModel :=
  {| pruning := pruning m;
     grads := union_with (fun a b => Some (a + b)%Q) (grads m) inputs |}.

Definition clear_grads (m : EngineModel) : EngineModel :=
  {| pruning := pruning m; grads := ∅ |}.

Definition track (m : EngineModel) (d : gmap string Q) (metric : string)
    : result (gmap string Q) :=
  if String.eqb metric "lora" || String.eqb metric "grad" then
    Ok (map_imap (fun name v => Some (v + default 0%Q (grads m !! name))%Q) d)
  else Raise UnknownMetric.

Definition prune (m : EngineModel) (dual_scores : gmap string Q)
    (target_ratio threshold : Q) : result EngineModel :=
  let* r := PruningApplicator.unlearning_prune (pruning m) dual_scores
              target_ratio threshold in
  Ok {| pruning := fst r; grads := grads m |}.

#[export] Instance collaborators : Collaborators := {|
  Model := EngineModel;
  Batch := gmap string Q;
  Sens := Q;
  Dual := Q;
  parameter_groups := fun m => PruningApplicator.groups (pruning m);
  zeros := 0%Q;
  unfreeze := fun m => m;
  training_step := accumulate;
  deepspeed_step := fun m => m;
  clip_grad_norm_ := fun m _ => m;
  update_sensitivity_dict := track;
  schedule_sparsity_ratio := RatioScheduler.ratio_at;
  compute_dual_sensitivity := DualSensitivityCombiner.combine;
  unlearning_prune := prune;
  optimizer_step := fun m => m;
  zero_grad := clear_grads;
  should_epoch_stop := fun _ => false;
  should_training_stop := fun st => max_steps st <=? global_step st
|}.

(** The defaults of [LoRAPruneTrainer.__init__], with one batch per
    optimizer step and gradients clipped at norm 1. *)
Definition default_config : Config := {|
  ratio := 1 # 2;
  init_ratio := 0;
  warmup_iters := 1 # 10;
  cooldown_iters := 1 # 10;
  prune_freq := 10;
  prune_metric := "lora";
  unlearning_threshold := 1 # 10;
  gradient_accumulation_steps := 1;
  max_grad_norm := Some 1%Q;
  deepspeed := false
|}.

(** The same with the gradient metric and two batches per optimizer
    step. *)
Definition grad_config : Config := {|
  ratio := 1 # 2;
  init_ratio := 0;
  warmup_iters := 1 # 10;
  cooldown_iters := 1 # 10;
  prune_freq := 10;
  prune_metric := "grad";
  unlearning_threshold := 1 # 10;
  gradient_accumulation_steps := 2;
  max_grad_norm := Some 1%Q;
  deepspeed := false
|}.

Definition two_groups : EngineModel := {|
  pruning := {| PruningApplicator.groups := ["A"; "B"];
                PruningApplicator.pruned := ∅ |};
  grads := ∅
|}.

(** A loop state in the middle of a run of 100 steps: group [A] matters
    to the forget set, group [B] to the retain set. *)
Definition loop_at (step : Z) : Loop := {|
  model := two_groups;
  forget_sensitivity_dict := {[ "A" := 10%Q; "B" := 1%Q ]};
  retain_sensitivity_dict := {[ "A" := 1%Q; "B" := 10%Q ]};
  state := {| global_step := step; max_steps := 100 |};
  total_batched_samples := step;
  calls := []
|}.

(** Dual scores of which only that of [A] passes a threshold of one
    half. *)
Definition weak_scores : gmap string Q := {[ "A" := 10%Q; "B" := (1 # 10)%Q ]}.

(** Gradient magnitudes of a forget batch and of a retain batch. *)
Definition forget_batch : gmap string Q := {[ "A" := 3%Q ]}.
Definition retain_batch : gmap string Q := {[ "B" := 2%Q ]}.

(** Configurations at the edges: no gradient accumulation steps, no
    pruning cadence, no gradient clipping. *)
Definition zero_accumulation_config : Config := {|
  ratio := 1 # 2;
  init_ratio := 0;
  warmup_iters := 1 # 10;
  cooldown_iters := 1 # 10;
  prune_freq := 10;
  prune_metric := "lora";
  unlearning_threshold := 1 # 10;
  gradient_accumulation_steps := 0;
  max_grad_norm := Some 1%Q;
  deepspeed := false
|}.

Definition zero_prune_freq_config : Config := {|
  ratio := 1 # 2;
  init_ratio := 0;
  warmup_iters := 1 # 10;
  cooldown_iters := 1 # 10;
  prune_freq := 0;
  prune_metric := "lora";
  unlearning_threshold := 1 # 10;
  gradient_accumulation_steps := 1;
  max_grad_norm := Some 1%Q;
  deepspeed := false
|}.

Definition no_clipping_config : Config := {|
  ratio := 1 # 2;
  init_ratio := 0;
  warmup_iters := 1 # 10;
  cooldown_iters := 1 # 10;
  prune_freq := 10;
  prune_metric := "lora";
  unlearning_threshold := 1 # 10;
  gradient_accumulation_steps := 4;
  max_grad_norm := None;
  deepspeed := false
|}.

(** A retain dict that lacks the group [B]. *)
Definition retain_without_B : gmap string Q := {[ "A" := 1%Q ]}.

(** Arguments and loaders of a run of 3 epochs over 4 forget and 6 retain
    batches. *)
Definition three_epochs : TrainingArguments := {|
  train_batch_size := 8;
  world_size := 1;
  args_max_steps := -1;
  args_num_train_epochs := 3
|}.

Definition ten_batches : Dataloaders := {|
  train_length := Some 6%nat;
  forget_length := Some (Some 4%nat);
  retain_examples := 48;
  forget_examples := 32
|}.

End Engine.

(** * Properties *)

Lemma Qltb_true (a b : Q) : Qltb a b = true <-> (a < b)%Q.
Proof.
  unfold Qltb. rewrite Qlt_alt. destruct (a ?= b)%Q; split; congruence.
Qed.

Lemma Qltb_false (a b : Q) : Qltb a b = false <-> (b <= a)%Q.
Proof.
  unfold Qltb. rewrite Qle_alt, <- Qgt_alt, Qlt_alt.
  destruct (a ?= b)%Q eqn:E; split; try congruence.
Qed.

Lemma Qleb_true (a b : Q) : Qleb a b = true <-> (a <= b)%Q.
Proof.
  unfold Qleb. rewrite Qle_alt.
  destruct (a ?= b)%Q; split; congruence.
Qed.

Lemma Qleb_false (a b : Q) : Qleb a b = false <-> (b < a)%Q.
Proof.
  unfold Qleb. rewrite Qgt_alt.
  destruct (a ?= b)%Q; split; congruence.
Qed.

Lemma bind_Ok {A B : Type} (r : result A) (k : A -> result B) (b : B) :
  bind r k = Ok b -> exists a, r = Ok a /\ k a = Ok b.
Proof.
  destruct r as [a|e]; simpl; [eauto | discriminate].
Qed.

Lemma py_mod_Ok (a b r : Z) : py_mod a b = Ok r -> b <> 0 /\ r = a mod b.
Proof.
  unfold py_mod. destruct (Z.eqb_spec b 0); [discriminate|].
  intros [= <-]. auto.
Qed.

Lemma py_mod_nonzero (a b : Z) : b <> 0 -> py_mod a b = Ok (a mod b).
Proof.
  intros Hb. unfold py_mod. destruct (Z.eqb_spec b 0); [contradiction | reflexivity].
Qed.

(** Inversion of a successful sequence of binds. *)
Ltac bind_inv H :=
  let a := fresh "a" in
  let Ha := fresh "Ha" in
  apply bind_Ok in H; destruct H as (a & Ha & H).

(** Inversion of the boundary branch of an iteration: [H] becomes the
    equation of the boundary step. *)
Ltac boundary_inv H :=
  let s2 := fresh "s" in
  let Hb := fresh "Hb" in
  let u := fresh "u" in
  let Hu := fresh "Hu" in
  apply bind_Ok in H; destruct H as (s2 & Hb & H);
  apply bind_Ok in H; destruct H as (u & Hu & H);
  injection H as <-; rename Hb into H.

Section LoopFacts.
Context {C : Collaborators}.

Lemma emitted_app (s s' : Loop) (l : list Call) :
  calls s' = calls s ++ l -> emitted s s' = l.
Proof.
  intros E. unfold emitted. rewrite E. apply drop_app_length.
Qed.

Lemma clip_gradients_spec (cfg : Config) (s : Loop) :
  calls (clip_gradients cfg s) = calls s ++ clip_calls cfg
  /\ forget_sensitivity_dict (clip_gradients cfg s) = forget_sensitivity_dict s
  /\ retain_sensitivity_dict (clip_gradients cfg s) = retain_sensitivity_dict s
  /\ state (clip_gradients cfg s) = state s
  /\ total_batched_samples (clip_gradients cfg s) = total_batched_samples s.
Proof.
  unfold clip_gradients, clip_calls.
  destruct (max_grad_norm cfg) as [g|]; simpl.
  - destruct (Qltb 0 g && negb (deepspeed cfg)); simpl;
      rewrite ?app_nil_r; auto.
  - rewrite app_nil_r; auto.
Qed.

Lemma update_forget_spec (cfg : Config) (s s1 : Loop) :
  update_forget cfg s = Ok s1 ->
  calls s1 = calls s ++ update_calls cfg Forget
  /\ model s1 = model s
  /\ retain_sensitivity_dict s1 = retain_sensitivity_dict s
  /\ state s1 = state s
  /\ total_batched_samples s1 = total_batched_samples s
  /\ (if deepspeed cfg
      then forget_sensitivity_dict s1 = forget_sensitivity_dict s
      else update_sensitivity_dict (model s) (forget_sensitivity_dict s)
             (prune_metric cfg) = Ok (forget_sensitivity_dict s1)).
Proof.
  unfold update_forget, update_calls. destruct (deepspeed cfg).
  - intros [= <-]. rewrite app_nil_r. auto 10.
  - intros H. bind_inv H. injection H as <-. simpl. auto 10.
Qed.

Lemma update_retain_spec (cfg : Config) (s s1 : Loop) :
  update_retain cfg s = Ok s1 ->
  calls s1 = calls s ++ update_calls cfg Retain
  /\ model s1 = model s
  /\ forget_sensitivity_dict s1 = forget_sensitivity_dict s
  /\ state s1 = state s
  /\ total_batched_samples s1 = total_batched_samples s
  /\ (if deepspeed cfg
      then retain_sensitivity_dict s1 = retain_sensitivity_dict s
      else update_sensitivity_dict (model s) (retain_sensitivity_dict s)
             (prune_metric cfg) = Ok (retain_sensitivity_dict s1)).
Proof.
  unfold update_retain, update_calls. destruct (deepspeed cfg).
  - intros [= <-]. rewrite app_nil_r. auto 10.
  - intros H. bind_inv H. injection H as <-. simpl. auto 10.
Qed.

Lemma scheduled_ratio_spec (cfg : Config) (s s1 : Loop) (target : Q) :
  scheduled_ratio cfg s = Ok (target, s1) ->
  schedule_sparsity_ratio (global_step (state s)) (max_steps (state s))
    (warmup_iters cfg) (cooldown_iters cfg) (init_ratio cfg) (ratio cfg)
    = Ok target
  /\ s1 = call (schedule_sparsity_ratio_call (global_step (state s))) s.
Proof.
  unfold scheduled_ratio. intros H. bind_inv H. injection H as <- <-. auto.
Qed.


Lemma forget_boundary_spec (cfg : Config) (s s' : Loop) :
  forget_boundary cfg s = Ok s' ->
  calls s' = calls s ++ clip_calls cfg ++ update_calls cfg Forget
               ++ [schedule_sparsity_ratio_call (global_step (state s));
                   zero_grad_call]
  /\ model s' = zero_grad (model (clip_gradients cfg s))
  /\ retain_sensitivity_dict s' = retain_sensitivity_dict s
  /\ state s' = {| global_step := global_step (state s) + 1;
                   max_steps := max_steps (state s) |}
  /\ total_batched_samples s' = total_batched_samples s
  /\ (if deepspeed cfg
      then forget_sensitivity_dict s' = forget_sensitivity_dict s
      else update_sensitivity_dict (model (clip_gradients cfg s))
             (forget_sensitivity_dict s) (prune_metric cfg)
           = Ok (forget_sensitivity_dict s')).
Proof.
  unfold forget_boundary. intros H.
  bind_inv H. bind_inv H. destruct a0 as [target s2].
  injection H as <-.
  apply scheduled_ratio_spec in Ha0 as [_ ->].
  apply update_forget_spec in Ha as (Hc & Hm & Hr & Hs & Ht & Hf).
  destruct (clip_gradients_spec cfg s) as (Hc0 & Hf0 & Hr0 & Hs0 & Ht0).
  simpl. rewrite Hc, Hc0, Hm, Hr, Hr0, Hs, Hs0, Ht, Ht0.
  rewrite <- !app_assoc. simpl. repeat split.
  destruct (deepspeed cfg); [congruence|]. rewrite <- Hf0. exact Hf.
Qed.

Lemma dual_sensitivity_loop_spec (items : list (string * Sens))
    (retain : gmap string Sens) (acc dual : gmap string Dual)
    (log0 log : list Call) :
  NoDup (fst <$> items) ->
  dual_sensitivity_loop items retain acc log0 = Ok (dual, log) ->
  log = log0 ++ (compute_dual_sensitivity_call <$> (fst <$> items))
  /\ (forall name f, (name, f) ∈ items ->
        exists r, retain !! name = Some r
                  /\ dual !! name = Some (compute_dual_sensitivity f r))
  /\ (forall name, name ∉ (fst <$> items) -> dual !! name = acc !! name).
Proof.
  revert acc log0. induction items as [|[n f] rest IH]; intros acc log0 Hnd H.
  - simpl in H. injection H as <- <-. rewrite app_nil_r.
    split; [reflexivity|]. split; [|reflexivity].
    intros name f Hin. inversion Hin.
  - simpl in H. destruct (retain !! n) as [r|] eqn:Hr; [|discriminate].
    rewrite fmap_cons in Hnd. apply NoDup_cons in Hnd as [Hn Hnd].
    destruct (IH _ _ Hnd H) as (Hlog & Hin & Hout).
    split; [|split].
    + rewrite Hlog, <- app_assoc. reflexivity.
    + intros name f' Hel. apply elem_of_cons in Hel as [[= -> ->]|Hel].
      * exists r. split; [assumption|].
        rewrite (Hout n Hn). simpl. apply lookup_insert_eq.
      * apply Hin. assumption.
    + intros name Hnot. rewrite fmap_cons in Hnot.
      apply not_elem_of_cons in Hnot as [Hne Hnot].
      rewrite (Hout name Hnot). apply lookup_insert_ne.
      intros ->. apply Hne. reflexivity.
Qed.

Lemma dual_sensitivity_loop_total (items : list (string * Sens))
    (retain : gmap string Sens) (acc : gmap string Dual) (log0 : list Call) :
  (forall name f, (name, f) ∈ items -> is_Some (retain !! name)) ->
  exists dual log, dual_sensitivity_loop items retain acc log0 = Ok (dual, log).
Proof.
  revert acc log0. induction items as [|[n f] rest IH]; intros acc log0 H.
  - simpl. eauto.
  - simpl. destruct (H n f) as [r ->]; [left|].
    apply IH. intros name f' Hel. apply (H name f'). right. assumption.
Qed.

Lemma compute_dual_spec (forget retain : gmap string Sens)
    (dual : gmap string Dual) (log : list Call) :
  compute_dual forget retain = Ok (dual, log) ->
  log = compute_dual_sensitivity_call <$> (fst <$> map_to_list forget)
  /\ (forall name f, forget !! name = Some f ->
        exists r, retain !! name = Some r
                  /\ dual !! name = Some (compute_dual_sensitivity f r))
  /\ (forall name, forget !! name = None -> dual !! name = None).
Proof.
  unfold compute_dual. intros H.
  apply dual_sensitivity_loop_spec in H as (Hlog & Hin & Hout);
    [|apply NoDup_fst_map_to_list].
  split; [exact Hlog|]. split.
  - intros name f Hf. apply Hin. apply elem_of_map_to_list. exact Hf.
  - intros name Hf. rewrite Hout; [apply lookup_empty|].
    intros Hel. apply list_elem_of_fmap in Hel as ([n f] & -> & Hel).
    apply elem_of_map_to_list in Hel. simpl in Hf. congruence.
Qed.

Lemma compute_dual_total (forget retain : gmap string Sens) :
  dom forget ⊆ dom retain ->
  exists dual log, compute_dual forget retain = Ok (dual, log).
Proof.
  intros Hsub. apply dual_sensitivity_loop_total.
  intros name f Hel. apply elem_of_map_to_list in Hel.
  apply elem_of_dom, Hsub, elem_of_dom. eauto.
Qed.

Lemma prune_gate_true (cfg : Config) (step : Z) (target : Q) :
  prune_gate cfg step target = Ok true <->
  prune_freq cfg <> 0 /\ step mod prune_freq cfg = 0
  /\ (init_ratio cfg < target)%Q /\ (target < ratio cfg)%Q.
Proof.
  unfold prune_gate. split.
  - intros H. bind_inv H. apply py_mod_Ok in Ha as [Hnz ->].
    injection H as H. apply andb_prop in H as [H H3].
    apply andb_prop in H as [H1 H2].
    apply Z.eqb_eq in H1. apply Qltb_true in H2, H3. auto.
  - intros (Hnz & Hmod & Hlo & Hhi). rewrite (py_mod_nonzero _ _ Hnz). simpl.
    rewrite Hmod. apply Qltb_true in Hlo, Hhi. rewrite Hlo, Hhi. reflexivity.
Qed.

Lemma prune_block_spec (cfg : Config) (target : Q) (s s2 : Loop) :
  prune_block cfg target s = Ok s2 ->
  forget_sensitivity_dict s2 = forget_sensitivity_dict s
  /\ retain_sensitivity_dict s2 = retain_sensitivity_dict s
  /\ state s2 = state s
  /\ total_batched_samples s2 = total_batched_samples s
  /\ exists go, prune_gate cfg (global_step (state s)) target = Ok go
     /\ if go then
          exists dual log,
            compute_dual (forget_sensitivity_dict s) (retain_sensitivity_dict s)
              = Ok (dual, log)
            /\ unlearning_prune (model s) dual target (unlearning_threshold cfg)
               = Ok (model s2)
            /\ calls s2 = calls s ++ log
                 ++ [unlearning_prune_call target (unlearning_threshold cfg)]
        else s2 = s.
Proof.
  unfold prune_block. intros H. bind_inv H. destruct a as [|].
  - bind_inv H. destruct a as [dual log]. bind_inv H. injection H as <-.
    simpl. repeat split. exists true. split; [assumption|].
    exists dual, log. rewrite <- app_assoc. auto.
  - injection H as <-. repeat split. exists false. auto.
Qed.

(** Calls of a pruning block: the per-name combinations, then the pruning
    call. *)
Lemma prune_block_calls (cfg : Config) (target : Q) (s s2 : Loop) :
  prune_block cfg target s = Ok s2 ->
  exists go, prune_gate cfg (global_step (state s)) target = Ok go
    /\ calls s2 = calls s ++
         (if go
          then (compute_dual_sensitivity_call
                  <$> (fst <$> map_to_list (forget_sensitivity_dict s)))
               ++ [unlearning_prune_call target (unlearning_threshold cfg)]
          else []).
Proof.
  intros H. apply prune_block_spec in H as (_ & _ & _ & _ & go & Hgo & H).
  exists go. split; [assumption|]. destruct go.
  - destruct H as (dual & log & Hd & _ & Hc).
    apply compute_dual_spec in Hd as (-> & _). exact Hc.
  - subst s2. rewrite app_nil_r. reflexivity.
Qed.

Lemma optimizer_and_scheduler_spec (cfg : Config) (s : Loop) :
  calls (optimizer_and_scheduler cfg s) = calls s ++ optimizer_calls cfg
  /\ model (optimizer_and_scheduler cfg s) = optimizer_step (model s)
  /\ forget_sensitivity_dict (optimizer_and_scheduler cfg s)
     = forget_sensitivity_dict s
  /\ retain_sensitivity_dict (optimizer_and_scheduler cfg s)
     = retain_sensitivity_dict s
  /\ state (optimizer_and_scheduler cfg s) = state s
  /\ total_batched_samples (optimizer_and_scheduler cfg s)
     = total_batched_samples s.
Proof.
  unfold optimizer_and_scheduler, optimizer_calls.
  destruct (deepspeed cfg); simpl; rewrite <- ?app_assoc; auto 10.
Qed.

(** What a completed boundary step of the retain stream leaves behind. *)
Lemma retain_boundary_spec (cfg : Config) (s s' : Loop) :
  retain_boundary cfg s = Ok s' ->
  exists (s1 s2 : Loop) (target : Q) (go : bool),
    update_retain cfg (clip_gradients cfg s) = Ok s1
    /\ schedule_sparsity_ratio (global_step (state s)) (max_steps (state s))
         (warmup_iters cfg) (cooldown_iters cfg) (init_ratio cfg) (ratio cfg)
       = Ok target
    /\ prune_block cfg target
         (call (schedule_sparsity_ratio_call (global_step (state s))) s1)
       = Ok s2
    /\ prune_gate cfg (global_step (state s)) target = Ok go
    /\ calls s' = calls s ++ clip_calls cfg ++ update_calls cfg Retain
         ++ [schedule_sparsity_ratio_call (global_step (state s))]
         ++ (if go
             then (compute_dual_sensitivity_call
                     <$> (fst <$> map_to_list (forget_sensitivity_dict s)))
                  ++ [unlearning_prune_call target (unlearning_threshold cfg)]
             else [])
         ++ optimizer_calls cfg ++ [zero_grad_call]
    /\ model s' = zero_grad (optimizer_step (model s2))
    /\ forget_sensitivity_dict s' = forget_sensitivity_dict s
    /\ retain_sensitivity_dict s' = retain_sensitivity_dict s1
    /\ state s' = {| global_step := global_step (state s) + 1;
                     max_steps := max_steps (state s) |}
    /\ total_batched_samples s' = total_batched_samples s.
Proof.
  unfold retain_boundary. intros H.
  bind_inv H. rename a into s1. bind_inv H. destruct a as [target s1'].
  bind_inv H. rename a into s2. injection H as <-.
  apply scheduled_ratio_spec in Ha0 as [Hsched ->].
  pose proof (update_retain_spec _ _ _ Ha) as (Hc & Hm & Hf & Hs & Ht & Hr).
  destruct (clip_gradients_spec cfg s) as (Hc0 & Hf0 & Hr0 & Hs0 & Ht0).
  rewrite Hs0 in Hs.
  pose proof (prune_block_spec _ _ _ _ Ha1) as (Hf2 & Hr2 & Hs2 & Ht2 & _).
  pose proof (prune_block_calls _ _ _ _ Ha1) as (go & Hgo & Hc2).
  simpl in Hf2, Hr2, Hs2, Ht2, Hgo, Hc2. rewrite Hs in Hgo.
  destruct (optimizer_and_scheduler_spec cfg s2) as (Hc3 & Hm3 & Hf3 & Hr3 & Hs3 & Ht3).
  exists s1, s2, target, go. simpl.
  rewrite Hc3, Hm3, Hf3, Hr3, Hs3, Ht3, Hc2, Hf2, Hr2, Hs2, Ht2.
  rewrite Hc, Hc0, Hf, Hf0, Hs, Ht, Ht0.
  rewrite <- !app_assoc. simpl. rewrite Hs in Hsched, Ha1.
  repeat split; assumption.
Qed.

Lemma run_training_step_spec (cfg : Config) (stream : Stream) (step : Z)
    (inputs : Batch) (s s1 : Loop) :
  run_training_step cfg stream step inputs s = Ok s1 ->
  gradient_accumulation_steps cfg <> 0
  /\ calls s1 = calls s ++ training_step_call stream
                  :: (if deepspeed cfg then [deepspeed_step_call] else [])
  /\ forget_sensitivity_dict s1 = forget_sensitivity_dict s
  /\ retain_sensitivity_dict s1 = retain_sensitivity_dict s
  /\ state s1 = state s
  /\ total_batched_samples s1 = total_batched_samples s + 1.
Proof.
  unfold run_training_step. intros H. bind_inv H.
  apply py_mod_Ok in Ha as [Hnz _]. injection H as <-.
  destruct (deepspeed cfg); simpl; rewrite <- ?app_assoc; auto 10.
Qed.

Lemma extends_refl (ok : Call -> bool) (s : Loop) : extends ok s s.
Proof.
  exists []. rewrite app_nil_r, Z.sub_diag. repeat split. lia.
Qed.

Lemma extends_trans (ok : Call -> bool) (s1 s2 s3 : Loop) :
  extends ok s1 s2 -> extends ok s2 s3 -> extends ok s1 s3.
Proof.
  intros (l1 & Hc1 & Hok1 & Hle1 & Hm1 & Hs1) (l2 & Hc2 & Hok2 & Hle2 & Hm2 & Hs2).
  exists (l1 ++ l2). rewrite Hc2, Hc1, app_assoc, forallb_app, Hok1, Hok2.
  repeat split; [lia | congruence |].
  unfold schedule_steps in *. rewrite omap_app, Hs1, Hs2.
  replace (global_step (state s3) - global_step (state s1))
    with ((global_step (state s2) - global_step (state s1))
          + (global_step (state s3) - global_step (state s2))) by lia.
  rewrite seqZ_app by lia. do 2 f_equal. lia.
Qed.

Lemma extends_weaken (ok ok' : Call -> bool) (s s' : Loop) :
  (forall c, ok c = true -> ok' c = true) ->
  extends ok s s' -> extends ok' s s'.
Proof.
  intros Himp (l & Hc & Hok & Hrest). exists l. split; [assumption|].
  split; [|assumption].
  rewrite forallb_forall in *. intros c Hin. apply Himp, Hok, Hin.
Qed.

Lemma extends_same_step (ok : Call -> bool) (s s' : Loop) (l : list Call) :
  calls s' = calls s ++ l -> state s' = state s ->
  forallb ok l = true -> schedule_steps l = [] -> extends ok s s'.
Proof.
  intros Hc Hs Hok Hsched. exists l. rewrite Hs, Z.sub_diag, Hsched.
  repeat split; [assumption | assumption | lia].
Qed.

Lemma clip_calls_ok (ok : Call -> bool) (cfg : Config) :
  ok clip_grad_norm_call = true ->
  forallb ok (clip_calls cfg) = true /\ schedule_steps (clip_calls cfg) = [].
Proof.
  intros Hok. unfold clip_calls. destruct (max_grad_norm cfg) as [g|]; [|auto].
  destruct (Qltb 0 g && negb (deepspeed cfg)); simpl; rewrite ?Hok; auto.
Qed.

Lemma run_training_step_extends (cfg : Config) (stream : Stream) (step : Z)
    (inputs : Batch) (s s1 : Loop) :
  run_training_step cfg stream step inputs s = Ok s1 ->
  extends (match stream with
           | Forget => forget_stream_call
           | Retain => retain_stream_call
           end) s s1.
Proof.
  intros H. apply run_training_step_spec in H as (_ & Hc & _ & _ & Hs & _).
  eapply extends_same_step; [exact Hc | exact Hs | |];
    destruct stream, (deepspeed cfg); reflexivity.
Qed.

Lemma forget_boundary_extends (cfg : Config) (s s' : Loop) :
  forget_boundary cfg s = Ok s' -> extends forget_stream_call s s'.
Proof.
  intros H. apply forget_boundary_spec in H as (Hc & _ & _ & Hs & _).
  destruct (clip_calls_ok forget_stream_call cfg eq_refl) as [Hok Hsch].
  eexists. split; [exact Hc|]. rewrite Hs. simpl.
  rewrite !forallb_app, Hok. unfold schedule_steps in *.
  rewrite !omap_app, Hsch. unfold update_calls.
  replace (global_step (state s) + 1 - global_step (state s)) with 1 by lia.
  destruct (deepspeed cfg); simpl; repeat split; lia.
Qed.

Lemma retain_boundary_extends (cfg : Config) (s s' : Loop) :
  retain_boundary cfg s = Ok s' -> extends retain_stream_call s s'.
Proof.
  intros H. apply retain_boundary_spec in H
    as (s1 & s2 & target & go & _ & _ & _ & _ & Hc & _ & _ & _ & Hs & _).
  destruct (clip_calls_ok retain_stream_call cfg eq_refl) as [Hok Hsch].
  eexists. split; [exact Hc|]. rewrite Hs. simpl.
  replace (global_step (state s) + 1 - global_step (state s)) with 1 by lia.
  assert (Hcomb : forall names : list string,
             forallb retain_stream_call (compute_dual_sensitivity_call <$> names) = true
             /\ schedule_steps (compute_dual_sensitivity_call <$> names) = []).
  { induction names as [|n names [IH1 IH2]]; [auto|]. split; assumption. }
  destruct (Hcomb (fst <$> map_to_list (forget_sensitivity_dict s))) as [Hk1 Hk2].
  rewrite !forallb_app, Hok. unfold schedule_steps in *.
  rewrite !omap_app, Hsch. unfold update_calls, optimizer_calls.
  destruct (deepspeed cfg), go; simpl;
    rewrite ?forallb_app, ?omap_app, ?Hk1, ?Hk2; simpl; repeat split; lia.
Qed.

Lemma forget_iteration_extends (cfg : Config) (steps_in_epoch step : Z)
    (inputs : Batch) (s s' : Loop) :
  forget_iteration cfg steps_in_epoch step inputs s = Ok s' ->
  extends forget_stream_call s s'.
Proof.
  unfold forget_iteration. intros H. bind_inv H. bind_inv H.
  apply (run_training_step_extends cfg Forget) in Ha.
  eapply extends_trans; [exact Ha|]. destruct a0.
  - boundary_inv H.
    apply forget_boundary_extends with cfg. assumption.
  - injection H as <-. apply extends_refl.
Qed.

Lemma retain_iteration_extends (cfg : Config) (steps_in_epoch step : Z)
    (inputs : Batch) (s s' : Loop) :
  retain_iteration cfg steps_in_epoch step inputs s = Ok s' ->
  extends retain_stream_call s s'.
Proof.
  unfold retain_iteration. intros H. bind_inv H. bind_inv H.
  apply (run_training_step_extends cfg Retain) in Ha.
  eapply extends_trans; [exact Ha|]. destruct a0.
  - boundary_inv H.
    apply retain_boundary_extends with cfg. assumption.
  - injection H as <-. apply extends_refl.
Qed.

Lemma enumerate_loop_extends (ok : Call -> bool)
    (body : Z -> Batch -> Loop -> result Loop) (batches : list Batch) :
  (forall step inputs s s', body step inputs s = Ok s' -> extends ok s s') ->
  forall (step : Z) (s s' : Loop),
    enumerate_loop body step batches s = Ok s' -> extends ok s s'.
Proof.
  intros Hbody. induction batches as [|inputs rest IH]; intros step s s' H.
  - injection H as <-. apply extends_refl.
  - simpl in H. bind_inv H. apply Hbody in Ha.
    eapply extends_trans; [exact Ha|].
    destruct (should_epoch_stop (state a) || should_training_stop (state a)).
    + injection H as <-. apply extends_refl.
    + eapply IH. exact H.
Qed.

Lemma forget_stream_call_epoch (c : Call) :
  forget_stream_call c = true -> epoch_call c = true.
Proof. unfold epoch_call. intros ->. reflexivity. Qed.

Lemma retain_stream_call_epoch (c : Call) :
  retain_stream_call c = true -> epoch_call c = true.
Proof. unfold epoch_call. intros ->. apply orb_true_r. Qed.

Lemma run_epoch_extends (cfg : Config) (forget_dataloader : option (list Batch))
    (train_dataloader : list Batch) (s s' : Loop) :
  run_epoch cfg forget_dataloader train_dataloader s = Ok s' ->
  extends epoch_call s s'.
Proof.
  unfold run_epoch. intros H. bind_inv H.
  apply extends_trans with a.
  - apply extends_weaken with forget_stream_call;
      [exact forget_stream_call_epoch|].
    destruct forget_dataloader as [batches|].
    + eapply enumerate_loop_extends; [|exact Ha].
      intros step inputs s1 s2. apply forget_iteration_extends.
    + injection Ha as <-. apply extends_refl.
  - apply extends_weaken with retain_stream_call;
      [exact retain_stream_call_epoch|].
    eapply enumerate_loop_extends; [|exact H].
    intros step inputs s1 s2. apply retain_iteration_extends.
Qed.

Lemma run_epochs_extends (cfg : Config)
    (forget_dataloader : option (nat -> list Batch))
    (train_dataloader : nat -> list Batch) (remaining : nat) :
  forall (epoch : nat) (s s' : Loop),
    run_epochs cfg forget_dataloader train_dataloader remaining epoch s = Ok s' ->
    extends epoch_call s s'.
Proof.
  induction remaining as [|remaining IH]; intros epoch s s' H.
  - injection H as <-. apply extends_refl.
  - simpl in H. bind_inv H. apply run_epoch_extends in Ha.
    eapply extends_trans; [exact Ha|].
    destruct (should_training_stop (state a)).
    + injection H as <-. apply extends_refl.
    + eapply IH. exact H.
Qed.

Lemma extends_emitted (ok : Call -> bool) (s s' : Loop) :
  extends ok s s' ->
  calls s' = calls s ++ emitted s s'
  /\ forallb ok (emitted s s') = true
  /\ schedule_steps (emitted s s')
     = seqZ (global_step (state s))
         (global_step (state s') - global_step (state s)).
Proof.
  intros (l & Hc & Hok & _ & _ & Hs). rewrite (emitted_app _ _ _ Hc). auto.
Qed.

Lemma forallb_existsb_false (ok p : Call -> bool) (l : list Call) :
  (forall c, ok c = true -> p c = false) ->
  forallb ok l = true -> existsb p l = false.
Proof.
  intros Himp Hok. induction l as [|c l IH]; [reflexivity|].
  simpl in *. apply andb_prop in Hok as [Hc Hl].
  rewrite (Himp c Hc), (IH Hl). reflexivity.
Qed.

Lemma existsb_combine_calls (p : Call -> bool) (names : list string) :
  (forall name, p (compute_dual_sensitivity_call name) = false) ->
  existsb p (compute_dual_sensitivity_call <$> names) = false.
Proof.
  intros Hp. induction names as [|n names IH]; [reflexivity|].
  simpl. rewrite Hp. exact IH.
Qed.

Lemma existsb_clip_calls (p : Call -> bool) (cfg : Config) :
  p clip_grad_norm_call = false -> existsb p (clip_calls cfg) = false.
Proof.
  intros Hp. unfold clip_calls. destruct (max_grad_norm cfg) as [g|]; [|reflexivity].
  destruct (Qltb 0 g && negb (deepspeed cfg)); simpl; rewrite ?Hp; reflexivity.
Qed.

(** The calls of a completed retain boundary step contain a pruning call
    exactly when the gate of line 409 let the block run. *)
Lemma retain_boundary_prune (cfg : Config) (s s' : Loop) :
  retain_boundary cfg s = Ok s' ->
  exists (target : Q) (go : bool),
    schedule_sparsity_ratio (global_step (state s)) (max_steps (state s))
      (warmup_iters cfg) (cooldown_iters cfg) (init_ratio cfg) (ratio cfg)
    = Ok target
    /\ prune_gate cfg (global_step (state s)) target = Ok go
    /\ existsb is_prune (emitted s s') = go.
Proof.
  intros H. apply retain_boundary_spec in H
    as (s1 & s2 & target & go & _ & Hsched & _ & Hgo & Hc & _).
  exists target, go. split; [assumption|]. split; [assumption|].
  rewrite (emitted_app _ _ _ Hc). rewrite !existsb_app.
  rewrite (existsb_clip_calls is_prune cfg eq_refl).
  unfold update_calls, optimizer_calls.
  destruct (deepspeed cfg), go; simpl; rewrite ?existsb_app;
    rewrite ?existsb_combine_calls by reflexivity; reflexivity.
Qed.

Lemma emitted_trans (s s1 s' : Loop) (l1 l2 : list Call) :
  calls s1 = calls s ++ l1 -> calls s' = calls s1 ++ l2 ->
  emitted s s' = l1 ++ l2.
Proof.
  intros H1 H2. apply emitted_app. rewrite H2, H1, app_assoc. reflexivity.
Qed.

Lemma retain_iteration_prune (cfg : Config) (steps_in_epoch step : Z)
    (inputs : Batch) (s s' : Loop) :
  retain_iteration cfg steps_in_epoch step inputs s = Ok s' ->
  existsb is_prune (emitted s s') = true ->
  exists target : Q,
    schedule_sparsity_ratio (global_step (state s)) (max_steps (state s))
      (warmup_iters cfg) (cooldown_iters cfg) (init_ratio cfg) (ratio cfg)
    = Ok target
    /\ prune_gate cfg (global_step (state s)) target = Ok true.
Proof.
  unfold retain_iteration. intros H Hp. bind_inv H. bind_inv H.
  apply run_training_step_spec in Ha as (_ & Hc & _ & _ & Hs & _).
  destruct a0.
  - boundary_inv H.
    pose proof (retain_boundary_prune _ _ _ H) as (target & go & Hsched & Hgo & Hex).
    apply retain_boundary_extends, extends_emitted in H as (Hc' & _).
    rewrite (emitted_trans _ _ _ _ _ Hc Hc'), existsb_app in Hp.
    rewrite Hex in Hp. rewrite Hs in Hsched, Hgo.
    exists target. split; [assumption|].
    destruct (deepspeed cfg), go; simpl in Hp; try discriminate; assumption.
  - injection H as <-. rewrite (emitted_app _ _ _ Hc) in Hp.
    destruct (deepspeed cfg); discriminate.
Qed.

Lemma forget_iteration_no_prune (cfg : Config) (steps_in_epoch step : Z)
    (inputs : Batch) (s s' : Loop) :
  forget_iteration cfg steps_in_epoch step inputs s = Ok s' ->
  existsb is_prune (emitted s s') = false
  /\ existsb is_combine (emitted s s') = false
  /\ existsb is_optimizer_step (emitted s s') = false
  /\ existsb is_lr_scheduler_step (emitted s s') = false.
Proof.
  intros H. apply forget_iteration_extends, extends_emitted in H as (_ & Hok & _).
  repeat split; apply (forallb_existsb_false forget_stream_call); try assumption;
    intros c Hc; destruct c as [| |st| | |st| | | | | |]; try destruct st;
    try reflexivity; discriminate.
Qed.

(** C1. Pruning is attempted on a training step only when the cadence gate
    and the floor gate both hold: when the calls of an iteration of either
    stream contain a call to [unlearning_prune], the global step of that
    iteration is divisible by [prune_freq] and the scheduled ratio is
    strictly above [init_ratio].  In particular, with [prune_freq = 10] at
    global step 7 no pruning call is made, whatever the sensitivity dicts
    hold. *)
Theorem pruning_only_on_cadence_above_floor (cfg : Config) (stream : Stream)
    (steps_in_epoch step : Z) (inputs : Batch) (s s' : Loop) :
  match stream with
  | Forget => forget_iteration cfg steps_in_epoch step inputs s
  | Retain => retain_iteration cfg steps_in_epoch step inputs s
  end = Ok s' ->
  (existsb is_prune (emitted s s') = true ->
   exists target : Q,
     schedule_sparsity_ratio (global_step (state s)) (max_steps (state s))
       (warmup_iters cfg) (cooldown_iters cfg) (init_ratio cfg) (ratio cfg)
     = Ok target
     /\ global_step (state s) mod prune_freq cfg = 0
     /\ (init_ratio cfg < target)%Q)
  /\ (prune_freq cfg = 10 -> global_step (state s) = 7 ->
      existsb is_prune (emitted s s') = false).
Proof.
  intros H.
  assert (Hmain : existsb is_prune (emitted s s') = true ->
            exists target : Q,
              schedule_sparsity_ratio (global_step (state s)) (max_steps (state s))
                (warmup_iters cfg) (cooldown_iters cfg) (init_ratio cfg) (ratio cfg)
              = Ok target
              /\ global_step (state s) mod prune_freq cfg = 0
              /\ (init_ratio cfg < target)%Q).
  { intros Hp. destruct stream.
    - apply forget_iteration_no_prune in H as (Hno & _). congruence.
    - destruct (retain_iteration_prune _ _ _ _ _ _ H Hp) as (target & Hsched & Hgo).
      apply prune_gate_true in Hgo as (_ & Hmod & Hlo & _). eauto. }
  split; [exact Hmain|].
  intros Hfreq Hstep. destruct (existsb is_prune (emitted s s')) eqn:Hp; [|reflexivity].
  destruct (Hmain eq_refl) as (target & _ & Hmod & _).
  rewrite Hfreq, Hstep in Hmod. discriminate.
Qed.

(** C2 (amended). [target_ratio < final_ratio] is part of the decision
    gate: a completed retain boundary step calls [unlearning_prune]
    exactly when the global step is divisible by [prune_freq] and the
    scheduled ratio lies strictly between [init_ratio] and the final
    [ratio]; once the scheduled ratio has reached the final ratio no
    pruning is attempted. *)
Theorem pruning_gate_exact (cfg : Config) (s s' : Loop) :
  retain_boundary cfg s = Ok s' ->
  exists target : Q,
    schedule_sparsity_ratio (global_step (state s)) (max_steps (state s))
      (warmup_iters cfg) (cooldown_iters cfg) (init_ratio cfg) (ratio cfg)
    = Ok target
    /\ (existsb is_prune (emitted s s') = true <->
        global_step (state s) mod prune_freq cfg = 0
        /\ (init_ratio cfg < target)%Q /\ (target < ratio cfg)%Q)
    /\ ((ratio cfg <= target)%Q -> existsb is_prune (emitted s s') = false).
Proof.
  intros H. apply retain_boundary_prune in H as (target & go & Hsched & Hgo & ->).
  exists target. split; [assumption|].
  assert (Hnz : prune_freq cfg <> 0).
  { unfold prune_gate in Hgo. bind_inv Hgo. apply py_mod_Ok in Ha. tauto. }
  assert (Hiff : go = true <->
            global_step (state s) mod prune_freq cfg = 0
            /\ (init_ratio cfg < target)%Q /\ (target < ratio cfg)%Q).
  { split.
    - intros ->. apply prune_gate_true in Hgo. tauto.
    - intros Hall. assert (Ht : prune_gate cfg (global_step (state s)) target = Ok true)
        by (apply prune_gate_true; tauto).
      congruence. }
  split; [exact Hiff|].
  intros Hle. destruct go; [|reflexivity].
  destruct Hiff as [Hiff _]. destruct (Hiff eq_refl) as (_ & _ & Hlt).
  exfalso. apply (Qlt_not_le _ _ Hlt Hle).
Qed.

Lemma count_calls_app (p : Call -> bool) (l1 l2 : list Call) :
  count_calls p (l1 ++ l2) = (count_calls p l1 + count_calls p l2)%nat.
Proof.
  unfold count_calls. rewrite List.filter_app, length_app. reflexivity.
Qed.

Lemma count_calls_none (p : Call -> bool) (l : list Call) :
  existsb p l = false -> count_calls p l = O.
Proof.
  unfold count_calls. induction l as [|c l IH]; [reflexivity|].
  simpl. destruct (p c); [discriminate|]. exact IH.
Qed.

(** Calls to the optimizer and to the learning-rate scheduler in the two
    boundary bodies (lines 316-338 and 402-437). *)
Lemma boundary_optimizer_calls (cfg : Config) (s s' : Loop) :
  (forget_boundary cfg s = Ok s' ->
   count_calls is_optimizer_step (emitted s s') = O
   /\ count_calls is_lr_scheduler_step (emitted s s') = O)
  /\ (retain_boundary cfg s = Ok s' ->
      count_calls is_optimizer_step (emitted s s') = 1%nat
      /\ count_calls is_lr_scheduler_step (emitted s s')
         = if deepspeed cfg then O else 1%nat).
Proof.
  split; intros H.
  - apply forget_boundary_extends, extends_emitted in H as (_ & Hok & _).
    split; apply count_calls_none;
      apply (forallb_existsb_false forget_stream_call); try assumption;
      intros c Hc; destruct c as [| |st| | |st| | | | | |]; try destruct st;
      try reflexivity; discriminate.
  - apply retain_boundary_spec in H
      as (s1 & s2 & target & go & _ & _ & _ & _ & Hc & _).
    rewrite (emitted_app _ _ _ Hc), !count_calls_app.
    rewrite !(count_calls_none _ (clip_calls cfg))
      by (apply existsb_clip_calls; reflexivity).
    assert (Hcomb : forall p, (forall name, p (compute_dual_sensitivity_call name) = false) ->
              count_calls p (compute_dual_sensitivity_call
                               <$> (fst <$> map_to_list (forget_sensitivity_dict s))) = O).
    { intros p Hp. apply count_calls_none, existsb_combine_calls, Hp. }
    unfold update_calls, optimizer_calls.
    destruct (deepspeed cfg), go; simpl; rewrite ?count_calls_app, ?Hcomb by reflexivity;
      split; reflexivity.
Qed.

Lemma init_sensitivity_dict_lookup (m : Model) (name : string) :
  init_sensitivity_dict m !! name
  = if decide (name ∈ parameter_groups m) then Some zeros else None.
Proof.
  unfold init_sensitivity_dict.
  induction (parameter_groups m) as [|n l IH].
  - simpl. rewrite lookup_empty. destruct (decide (name ∈ [])) as [Hin|]; [|reflexivity].
    inversion Hin.
  - rewrite fmap_cons. simpl. destruct (decide (n = name)) as [->|Hne].
    + rewrite lookup_insert_eq.
      destruct (decide (name ∈ name :: l)) as [|Hnot]; [reflexivity|].
      exfalso. apply Hnot. left.
    + rewrite lookup_insert_ne by assumption. rewrite IH.
      destruct (decide (name ∈ l)) as [Hin|Hnin];
        destruct (decide (name ∈ n :: l)) as [Hin'|Hnin']; try reflexivity.
      * exfalso. apply Hnin'. right. assumption.
      * exfalso. apply elem_of_cons in Hin' as [->|Hin']; [apply Hne; reflexivity|].
        apply Hnin, Hin'.
Qed.

Lemma forget_iteration_dicts (cfg : Config) (steps_in_epoch step : Z)
    (inputs : Batch) (s s' : Loop) :
  forget_iteration cfg steps_in_epoch step inputs s = Ok s' ->
  retain_sensitivity_dict s' = retain_sensitivity_dict s
  /\ (forget_sensitivity_dict s' = forget_sensitivity_dict s
      \/ exists m : Model,
           update_sensitivity_dict m (forget_sensitivity_dict s) (prune_metric cfg)
           = Ok (forget_sensitivity_dict s')).
Proof.
  unfold forget_iteration. intros H. bind_inv H. bind_inv H.
  apply run_training_step_spec in Ha as (_ & _ & Hf & Hr & _).
  destruct a0.
  - boundary_inv H.
    apply forget_boundary_spec in H as (_ & _ & Hr' & _ & _ & Hf').
    split; [congruence|]. destruct (deepspeed cfg).
    + left. congruence.
    + right. rewrite Hf in Hf'. eauto.
  - injection H as <-. auto.
Qed.

Lemma retain_iteration_dicts (cfg : Config) (steps_in_epoch step : Z)
    (inputs : Batch) (s s' : Loop) :
  retain_iteration cfg steps_in_epoch step inputs s = Ok s' ->
  forget_sensitivity_dict s' = forget_sensitivity_dict s
  /\ (retain_sensitivity_dict s' = retain_sensitivity_dict s
      \/ exists m : Model,
           update_sensitivity_dict m (retain_sensitivity_dict s) (prune_metric cfg)
           = Ok (retain_sensitivity_dict s')).
Proof.
  unfold retain_iteration. intros H. bind_inv H. bind_inv H.
  apply run_training_step_spec in Ha as (_ & _ & Hf & Hr & _).
  destruct a0.
  - boundary_inv H.
    apply retain_boundary_spec in H
      as (s1 & s2 & target & go & Hup & _ & _ & _ & _ & _ & Hf' & Hr' & _).
    split; [congruence|].
    apply update_retain_spec in Hup as (_ & _ & _ & _ & _ & Hup).
    destruct (clip_gradients_spec cfg a) as (_ & _ & Hr0 & _).
    rewrite Hr0, Hr in Hup. rewrite Hr'. destruct (deepspeed cfg).
    + left. assumption.
    + right. eauto.
  - injection H as <-. auto.
Qed.

(** C4. The forget and retain sensitivity dicts are two separate values,
    both initialised at the start of the run to zero over the parameter
    groups of the same model; an iteration of the forget stream leaves
    the retain dict as it was and an iteration of the retain stream
    leaves the forget dict as it was, and the new value of a dict, when
    it changes, is the tracker's update of the old value of that same
    dict. *)
Theorem sensitivity_dicts_independent (cfg : Config) (m : Model)
    (st : TrainerState) (steps_in_epoch step : Z) (inputs : Batch)
    (s s' : Loop) :
  (forget_sensitivity_dict (setup cfg m st)
     = init_sensitivity_dict (model (setup cfg m st))
   /\ retain_sensitivity_dict (setup cfg m st)
      = init_sensitivity_dict (model (setup cfg m st))
   /\ forall name : string,
        init_sensitivity_dict (model (setup cfg m st)) !! name
        = if decide (name ∈ parameter_groups (model (setup cfg m st)))
          then Some zeros else None)
  /\ (forget_iteration cfg steps_in_epoch step inputs s = Ok s' ->
      retain_sensitivity_dict s' = retain_sensitivity_dict s
      /\ (forget_sensitivity_dict s' = forget_sensitivity_dict s
          \/ exists m' : Model,
               update_sensitivity_dict m' (forget_sensitivity_dict s)
                 (prune_metric cfg)
               = Ok (forget_sensitivity_dict s')))
  /\ (retain_iteration cfg steps_in_epoch step inputs s = Ok s' ->
      forget_sensitivity_dict s' = forget_sensitivity_dict s
      /\ (retain_sensitivity_dict s' = retain_sensitivity_dict s
          \/ exists m' : Model,
               update_sensitivity_dict m' (retain_sensitivity_dict s)
                 (prune_metric cfg)
               = Ok (retain_sensitivity_dict s'))).
Proof.
  split; [|split].
  - split; [|split].
    + unfold setup. destruct (String.eqb (prune_metric cfg) "grad"); reflexivity.
    + unfold setup. destruct (String.eqb (prune_metric cfg) "grad"); reflexivity.
    + intros name. apply init_sensitivity_dict_lookup.
  - apply forget_iteration_dicts.
  - apply retain_iteration_dicts.
Qed.

(** C5. At each pruning decision the dual-sensitivity mapping is built
    anew from the two dicts as they are at that step: every name of the
    forget dict is mapped to the combiner applied to that name's forget
    value and that name's retain value, and no other name is mapped.  The
    mapping is handed to [unlearning_prune] together with the scheduled
    ratio and the unlearning threshold; it is not part of the state left
    by the step. *)
Theorem dual_sensitivity_built_per_decision (cfg : Config) (s s' : Loop) :
  retain_boundary cfg s = Ok s' ->
  existsb is_prune (emitted s s') = true ->
  exists (s1 : Loop) (target : Q) (dual : gmap string Dual) (log : list Call)
         (pruned : Model),
    update_retain cfg (clip_gradients cfg s) = Ok s1
    /\ compute_dual (forget_sensitivity_dict s) (retain_sensitivity_dict s1)
       = Ok (dual, log)
    /\ (forall (name : string) (f : Sens),
          forget_sensitivity_dict s !! name = Some f ->
          exists r : Sens,
            retain_sensitivity_dict s1 !! name = Some r
            /\ dual !! name = Some (compute_dual_sensitivity f r))
    /\ (forall name : string,
          forget_sensitivity_dict s !! name = None -> dual !! name = None)
    /\ unlearning_prune (model s1) dual target (unlearning_threshold cfg)
       = Ok pruned
    /\ model s' = zero_grad (optimizer_step pruned)
    /\ forget_sensitivity_dict s' = forget_sensitivity_dict s
    /\ retain_sensitivity_dict s' = retain_sensitivity_dict s1.
Proof.
  intros H Hp.
  pose proof (retain_boundary_prune _ _ _ H) as (target0 & go0 & Hs0 & Hg0 & Hex).
  rewrite Hp in Hex. subst go0.
  apply retain_boundary_spec in H
    as (s1 & s2 & target & go & Hup & Hsched & Hblock & Hgo & _ & Hm & Hf & Hr & _).
  assert (target0 = target) by congruence. subst target0.
  assert (go = true) by congruence. subst go.
  pose proof (update_retain_spec _ _ _ Hup) as (_ & _ & Hf1 & Hs1 & _).
  destruct (clip_gradients_spec cfg s) as (_ & Hf0 & _ & Hst0 & _).
  apply prune_block_spec in Hblock as (_ & _ & _ & _ & go & Hgo' & Hblock).
  simpl in Hgo', Hblock. rewrite Hs1, Hst0 in Hgo'.
  assert (go = true) by congruence. subst go.
  destruct Hblock as (dual & log & Hdual & Hprune & _).
  rewrite Hf1, Hf0 in Hdual.
  exists s1, target, dual, log, (model s2).
  pose proof (compute_dual_spec _ _ _ _ Hdual) as (_ & Hin & Hout).
  repeat split; assumption.
Qed.

Lemma setup_calls (cfg : Config) (m : Model) (st : TrainerState) :
  calls (setup cfg m st)
  = (if String.eqb (prune_metric cfg) "grad" then [unfreeze_call] else [])
    ++ [init_sensitivity_dict_call; init_sensitivity_dict_call].
Proof.
  unfold setup. destruct (String.eqb (prune_metric cfg) "grad"); reflexivity.
Qed.

(** C6. The trainer unfreezes the model exactly when [prune_metric] is
    ['grad'], and it does so before the first training step: the log of a
    run is the log of the set-up followed by the calls of the epochs; the
    set-up contains a call to [unfreeze] if and only if the metric is
    ['grad'] and contains no training step, and the epochs never call
    [unfreeze].  With ['lora'] the run contains no call to [unfreeze]. *)
Theorem unfreeze_iff_grad (cfg : Config) (m : Model) (st : TrainerState)
    (forget_dataloader : option (nat -> list Batch))
    (train_dataloader : nat -> list Batch) (num_train_epochs : nat)
    (s' : Loop) :
  train cfg m st forget_dataloader train_dataloader num_train_epochs = Ok s' ->
  exists rest : list Call,
    calls s' = calls (setup cfg m st) ++ rest
    /\ existsb is_unfreeze rest = false
    /\ existsb is_training_step (calls (setup cfg m st)) = false
    /\ (existsb is_unfreeze (calls (setup cfg m st)) = true
        <-> prune_metric cfg = "grad")
    /\ model (setup cfg m st)
       = (if String.eqb (prune_metric cfg) "grad" then unfreeze m else m)
    /\ (prune_metric cfg = "lora" -> existsb is_unfreeze (calls s') = false).
Proof.
  unfold train. intros H.
  apply run_epochs_extends, extends_emitted in H as (Hc & Hok & _).
  set (s0 := setup cfg m st) in *.
  assert (Hrest : existsb is_unfreeze (emitted s0 s') = false).
  { apply (forallb_existsb_false epoch_call); [|assumption].
    intros c Hcall. destruct c; try reflexivity; discriminate. }
  exists (emitted s0 s'). split; [assumption|]. split; [assumption|].
  subst s0. rewrite Hc, existsb_app, Hrest, setup_calls.
  unfold setup.
  destruct (String.eqb_spec (prune_metric cfg) "grad") as [Hg|Hg]; simpl.
  - split; [reflexivity|]. split; [tauto|]. split; [reflexivity|].
    intros Hl. rewrite Hg in Hl. discriminate.
  - split; [reflexivity|]. split; [|split; [reflexivity|]].
    + split; [discriminate | contradiction].
    + intros _. reflexivity.
Qed.

(** C9. Pruning happens on the retain stream only.  A forget boundary
    step asks the scheduler for the ratio, but it calls neither the
    combiner nor [unlearning_prune], and the model it leaves is the
    clipped model with its gradients zeroed; no iteration of the forget
    stream, and no pass over the forget data loader, makes a combiner or a
    pruning call. *)
Theorem forget_stream_never_prunes (cfg : Config) (steps_in_epoch step : Z)
    (inputs : Batch) (batches : list Batch) (s s' : Loop) :
  (forget_boundary cfg s = Ok s' ->
   count_calls is_schedule (emitted s s') = 1%nat
   /\ existsb is_combine (emitted s s') = false
   /\ existsb is_prune (emitted s s') = false
   /\ model s' = zero_grad (model (clip_gradients cfg s)))
  /\ (forget_iteration cfg steps_in_epoch step inputs s = Ok s' ->
      existsb is_combine (emitted s s') = false
      /\ existsb is_prune (emitted s s') = false)
  /\ (enumerate_loop (forget_iteration cfg steps_in_epoch) step batches s = Ok s' ->
      existsb is_combine (emitted s s') = false
      /\ existsb is_prune (emitted s s') = false).
Proof.
  assert (Hno : forall a b : Loop, extends forget_stream_call a b ->
            existsb is_combine (emitted a b) = false
            /\ existsb is_prune (emitted a b) = false).
  { intros a b Hext. apply extends_emitted in Hext as (_ & Hok & _).
    split; apply (forallb_existsb_false forget_stream_call); try assumption;
      intros c Hc; destruct c as [| |st| | |st| | | | | |]; try destruct st;
      try reflexivity; discriminate. }
  split; [|split]; intros H.
  - pose proof (forget_boundary_extends _ _ _ H) as Hext.
    destruct (Hno _ _ Hext) as [Hcomb Hprune].
    apply forget_boundary_spec in H as (Hc & Hm & _).
    repeat split; try assumption.
    rewrite (emitted_app _ _ _ Hc), !count_calls_app.
    rewrite (count_calls_none _ (clip_calls cfg))
      by (apply existsb_clip_calls; reflexivity).
    unfold update_calls. destruct (deepspeed cfg); reflexivity.
  - apply Hno. eapply forget_iteration_extends. exact H.
  - apply Hno. eapply enumerate_loop_extends; [|exact H].
    intros k b s1 s2. apply forget_iteration_extends.
Qed.

(** The two boundary bodies add one to [global_step] and hand its old
    value to the scheduler. *)
Lemma boundary_global_step (cfg : Config)
    (forget_dataloader : option (list Batch)) (train_dataloader : list Batch)
    (s s' : Loop) :
  (forget_boundary cfg s = Ok s' ->
   global_step (state s') = global_step (state s) + 1
   /\ schedule_steps (emitted s s') = [global_step (state s)])
  /\ (retain_boundary cfg s = Ok s' ->
      global_step (state s') = global_step (state s) + 1
      /\ schedule_steps (emitted s s') = [global_step (state s)]
      /\ exists (target : Q) (go : bool),
           prune_gate cfg (global_step (state s)) target = Ok go
           /\ existsb is_prune (emitted s s') = go)
  /\ (run_epoch cfg forget_dataloader train_dataloader s = Ok s' ->
      schedule_steps (emitted s s')
      = seqZ (global_step (state s))
          (global_step (state s') - global_step (state s))).
Proof.
  split; [|split]; intros H.
  - pose proof (forget_boundary_extends _ _ _ H) as Hext.
    apply extends_emitted in Hext as (_ & _ & Hsteps).
    apply forget_boundary_spec in H as (_ & _ & _ & Hs & _).
    rewrite Hsteps, Hs. simpl. split; [reflexivity|].
    replace (global_step (state s) + 1 - global_step (state s)) with 1 by lia.
    reflexivity.
  - pose proof (retain_boundary_extends _ _ _ H) as Hext.
    apply extends_emitted in Hext as (_ & _ & Hsteps).
    pose proof (retain_boundary_prune _ _ _ H) as (target & go & _ & Hgo & Hex).
    apply retain_boundary_spec in H
      as (_ & _ & _ & _ & _ & _ & _ & _ & _ & _ & _ & _ & Hs & _).
    rewrite Hsteps, Hs. simpl. split; [reflexivity|].
    replace (global_step (state s) + 1 - global_step (state s)) with 1 by lia.
    split; [reflexivity|]. eauto.
  - apply run_epoch_extends, extends_emitted in H as (_ & _ & Hsteps).
    exact Hsteps.
Qed.

End LoopFacts.

(** ** The pruning applicator *)

Lemma insert_ranked_elem (x y : string * Q) (l : list (string * Q)) :
  x ∈ PruningApplicator.insert_ranked y l <-> x = y \/ x ∈ l.
Proof.
  induction l as [|z l IH]; simpl.
  - rewrite list_elem_of_singleton. split; [auto|]. intros [H|H]; [assumption|].
    inversion H.
  - destruct (Qleb (snd z) (snd y)).
    + rewrite elem_of_cons. reflexivity.
    + rewrite !elem_of_cons, IH. tauto.
Qed.

Lemma rank_elem (x : string * Q) (l : list (string * Q)) :
  x ∈ PruningApplicator.rank l <-> x ∈ l.
Proof.
  induction l as [|y l IH]; simpl; [reflexivity|].
  rewrite insert_ranked_elem, elem_of_cons, IH. reflexivity.
Qed.

Lemma select_elem (ranked : list (string * Q)) (threshold : Q) (needed : nat)
    (name : string) :
  name ∈ PruningApplicator.select ranked threshold needed ->
  exists score : Q, (name, score) ∈ ranked /\ (threshold < score)%Q.
Proof.
  revert needed. induction ranked as [|[n sc] rest IH]; intros needed H.
  - inversion H.
  - simpl in H. destruct needed as [|k]; [inversion H|].
    destruct (Qltb threshold sc) eqn:Hlt.
    + apply elem_of_cons in H as [->|H].
      * exists sc. split; [left | apply Qltb_true; assumption].
      * destruct (IH _ H) as (score & Hin & Hs). exists score. split; [right|]; assumption.
    + destruct (IH _ H) as (score & Hin & Hs). exists score. split; [right|]; assumption.
Qed.

Lemma select_length (ranked : list (string * Q)) (threshold : Q) (needed : nat) :
  (length (PruningApplicator.select ranked threshold needed) <= needed)%nat.
Proof.
  revert needed. induction ranked as [|[n sc] rest IH]; intros needed; simpl; [lia|].
  destruct needed as [|k]; [simpl; lia|].
  destruct (Qltb threshold sc); simpl.
  - specialize (IH k). lia.
  - apply IH.
Qed.

(** C7. At a pruning event no element whose dual score is at most the
    threshold is pruned: it is not among the newly pruned elements, and it
    is in the pruned set afterwards only if it already was before.  This
    holds whatever the target ratio asks for, so the elements pruned may be
    fewer than the target needs. *)
Theorem threshold_gate (st st' : PruningApplicator.PruningState)
    (d : PruningApplicator.PruningDecision) (dual_scores : gmap string Q)
    (target_ratio threshold : Q) (name : string) (score : Q) :
  PruningApplicator.unlearning_prune st dual_scores target_ratio threshold
    = Ok (st', d) ->
  dual_scores !! name = Some score ->
  (score <= threshold)%Q ->
  (name ∉ PruningApplicator.newly_pruned d)
  /\ (name ∈ PruningApplicator.pruned st' -> name ∈ PruningApplicator.pruned st).
Proof.
  unfold PruningApplicator.unlearning_prune. intros H Hscore Hle.
  destruct (bool_decide _); [|discriminate]. injection H as <- <-. simpl.
  assert (Hnot : name ∉ PruningApplicator.select
                   (PruningApplicator.rank
                      (filter (fun x => fst x ∉ PruningApplicator.pruned st)
                         (map_to_list dual_scores)))
                   threshold
                   (PruningApplicator.needed_elements (size (dom dual_scores))
                      (size (PruningApplicator.pruned st)) target_ratio)).
  { intros Hsel. apply select_elem in Hsel as (score' & Hin & Hlt).
    apply rank_elem, list_elem_of_filter in Hin as [_ Hin].
    apply elem_of_map_to_list in Hin.
    assert (score' = score) by congruence. subst score'.
    apply (Qlt_not_le _ _ Hlt Hle). }
  split; [exact Hnot|].
  intros Hin. apply elem_of_union in Hin as [Hin|Hin]; [assumption|].
  apply elem_of_list_to_set in Hin. contradiction.
Qed.

(** ** The ratio schedule *)

Lemma progress_lt (step1 step2 max_steps : Z) :
  0 < max_steps -> step1 < step2 ->
  (inject_Z step1 / inject_Z max_steps < inject_Z step2 / inject_Z max_steps)%Q.
Proof.
  intros Hpos Hlt. unfold Qdiv. apply Qmult_lt_r.
  - apply Qinv_lt_0_compat. replace 0%Q with (inject_Z 0) by reflexivity.
    rewrite <- Zlt_Qlt. assumption.
  - rewrite <- Zlt_Qlt. assumption.
Qed.

Lemma Qdiv_le_mono (a b l : Q) : (0 < l)%Q -> (a <= b)%Q -> (a / l <= b / l)%Q.
Proof.
  intros Hl Hab. unfold Qdiv. apply Qmult_le_compat_r; [assumption|].
  apply Qlt_le_weak, Qinv_lt_0_compat, Hl.
Qed.

Lemma Qdiv_unit_interval (a l : Q) :
  (0 < l)%Q -> (0 <= a)%Q -> (a <= l)%Q -> (0 <= a / l)%Q /\ (a / l <= 1)%Q.
Proof.
  intros Hl H0 Hal. split.
  - apply Qle_shift_div_l; [assumption|]. lra.
  - apply Qle_shift_div_r; [assumption|]. lra.
Qed.

Lemma ratio_at_total (step max_steps : Z) (w c i f : Q) :
  0 < max_steps -> exists r : Q, RatioScheduler.ratio_at step max_steps w c i f = Ok r.
Proof.
  intros Hpos. unfold RatioScheduler.ratio_at.
  destruct (Z.leb_spec max_steps 0); [lia|].
  destruct (Qltb _ w); [eauto|]. destruct (Qleb 1 (w + c)); [eauto|].
  destruct (Qltb _ (1 - c)); eauto.
Qed.

(** C8 (amended). For [max_steps > 0] and [init_ratio <= final_ratio] the
    schedule is non-decreasing in the step: for [step1 < step2] both
    ratios are defined and the first is at most the second. *)
Theorem ratio_at_monotone (step1 step2 max_steps : Z)
    (warmup_frac cooldown_frac init_ratio final_ratio : Q) :
  0 < max_steps ->
  (init_ratio <= final_ratio)%Q ->
  step1 < step2 ->
  exists r1 r2 : Q,
    RatioScheduler.ratio_at step1 max_steps warmup_frac cooldown_frac
      init_ratio final_ratio = Ok r1
    /\ RatioScheduler.ratio_at step2 max_steps warmup_frac cooldown_frac
         init_ratio final_ratio = Ok r2
    /\ (r1 <= r2)%Q.
Proof.
  intros Hpos Hif Hlt. pose proof (progress_lt _ _ _ Hpos Hlt) as Hp.
  unfold RatioScheduler.ratio_at.
  destruct (Z.leb_spec max_steps 0); [lia|].
  set (p1 := (inject_Z step1 / inject_Z max_steps)%Q) in *.
  set (p2 := (inject_Z step2 / inject_Z max_steps)%Q) in *.
  set (l := (1 - cooldown_frac - warmup_frac)%Q).
  destruct (Qltb p1 warmup_frac) eqn:H1w;
    destruct (Qltb p2 warmup_frac) eqn:H2w;
    destruct (Qleb 1 (warmup_frac + cooldown_frac)) eqn:Hdeg;
    destruct (Qltb p1 (1 - cooldown_frac)) eqn:H1c;
    destruct (Qltb p2 (1 - cooldown_frac)) eqn:H2c;
    do 2 eexists; (split; [reflexivity|]); (split; [reflexivity|]);
    rewrite ?Qltb_true, ?Qltb_false, ?Qleb_true, ?Qleb_false in *;
    try lra.
  all: assert (Hl : (0 < l)%Q) by (unfold l; lra).
  all: try (destruct (Qdiv_unit_interval (p2 - warmup_frac) l Hl) as [Ha2 Hb2];
            [lra | unfold l; lra |]).
  all: try (destruct (Qdiv_unit_interval (p1 - warmup_frac) l Hl) as [Ha1 Hb1];
            [lra | unfold l; lra |]).
  all: try (assert (Hmono : ((p1 - warmup_frac) / l <= (p2 - warmup_frac) / l)%Q)
              by (apply Qdiv_le_mono; [assumption | lra])).
  all: nra.
Qed.

(** * The properties on the concrete engine *)

Lemma succeeds_Ok {A : Type} (r : result A) :
  succeeds r = true -> exists a : A, r = Ok a.
Proof.
  destruct r as [a|e]; [eauto | discriminate].
Qed.

Lemma holds_Ok {A : Type} (r : result A) (P : A -> Prop) (a : A) :
  holds r P -> r = Ok a -> P a.
Proof.
  intros H E. rewrite E in H. exact H.
Qed.

(** Run a closed computation and name its result. *)
Ltac run r s E :=
  destruct (succeeds_Ok r) as [s E]; [vm_compute; reflexivity|].

Section OnTheEngine.
#[local] Existing Instance Engine.collaborators.

Lemma pruning_only_on_cadence_above_floor_witness :
  (exists (s' : Loop) (target : Q),
     retain_iteration (C := Engine.collaborators) Engine.default_config 1 0 Engine.retain_batch
       (Engine.loop_at 50) = Ok s'
     /\ existsb is_prune (emitted (Engine.loop_at 50) s') = true
     /\ RatioScheduler.ratio_at 50 100 (1 # 10) (1 # 10) 0 (1 # 2) = Ok target
     /\ 50 mod 10 = 0
     /\ (0 < target)%Q)
  /\ (exists s' : Loop,
        retain_iteration (C := Engine.collaborators) Engine.default_config 1 0 Engine.retain_batch
          (Engine.loop_at 7) = Ok s'
        /\ existsb is_prune (emitted (Engine.loop_at 7) s') = false).
Proof.
  split.
  - destruct (succeeds_Ok
                (retain_iteration (C := Engine.collaborators) Engine.default_config 1 0 Engine.retain_batch
                   (Engine.loop_at 50))) as [s' E]; [vm_compute; reflexivity|].
    assert (Hh : holds (retain_iteration (C := Engine.collaborators)
                          Engine.default_config 1 0 Engine.retain_batch
                          (Engine.loop_at 50))
                   (fun a => existsb is_prune (emitted (Engine.loop_at 50) a) = true))
      by (vm_compute; reflexivity).
    pose proof (holds_Ok _ _ _ Hh E) as Hp. cbv beta in Hp.
    destruct (proj1 (pruning_only_on_cadence_above_floor (C := Engine.collaborators) Engine.default_config
                       Retain 1 0 Engine.retain_batch (Engine.loop_at 50) s' E) Hp)
      as (target & H1 & H2 & H3).
    exists s', target. auto.
  - destruct (succeeds_Ok
                (retain_iteration (C := Engine.collaborators) Engine.default_config 1 0 Engine.retain_batch
                   (Engine.loop_at 7))) as [s' E]; [vm_compute; reflexivity|].
    exists s'. split; [exact E|].
    apply (proj2 (pruning_only_on_cadence_above_floor (C := Engine.collaborators) Engine.default_config
                    Retain 1 0 Engine.retain_batch (Engine.loop_at 7) s' E));
      reflexivity.
Defined.

Lemma pruning_gate_exact_witness :
  exists (s' : Loop) (target : Q),
    retain_boundary (C := Engine.collaborators) Engine.default_config
      (Engine.loop_at 50) = Ok s'
    /\ RatioScheduler.ratio_at 50 100 (1 # 10) (1 # 10) 0 (1 # 2) = Ok target
    /\ (existsb is_prune (emitted (Engine.loop_at 50) s') = true <->
        50 mod 10 = 0 /\ (0 < target)%Q /\ (target < 1 # 2)%Q)
    /\ ((1 # 2 <= target)%Q ->
        existsb is_prune (emitted (Engine.loop_at 50) s') = false).
Proof.
  run (retain_boundary (C := Engine.collaborators) Engine.default_config
         (Engine.loop_at 50)) s' E.
  destruct (pruning_gate_exact (C := Engine.collaborators) Engine.default_config
              (Engine.loop_at 50) s' E) as (target & H1 & H2 & H3).
  exists s', target. auto.
Defined.

(** C2, as stated, fails: at global step 90 of 100 the step is on the
    cadence, the scheduler returns the final ratio, which is above
    [init_ratio], and the retain boundary step makes no pruning call. *)
Lemma pruning_at_final_ratio_counterexample :
  exists s' : Loop,
    retain_boundary (C := Engine.collaborators) Engine.default_config
      (Engine.loop_at 90) = Ok s'
    /\ 90 mod prune_freq Engine.default_config = 0
    /\ RatioScheduler.ratio_at 90 100 (1 # 10) (1 # 10) 0 (1 # 2)
       = Ok (ratio Engine.default_config)
    /\ (init_ratio Engine.default_config < ratio Engine.default_config)%Q
    /\ existsb is_prune (emitted (Engine.loop_at 90) s') = false.
Proof.
  run (retain_boundary (C := Engine.collaborators) Engine.default_config
         (Engine.loop_at 90)) s' E.
  assert (Hh : holds (retain_boundary (C := Engine.collaborators)
                        Engine.default_config (Engine.loop_at 90))
                 (fun a => existsb is_prune (emitted (Engine.loop_at 90) a) = false))
    by (vm_compute; reflexivity).
  exists s'. split; [exact E|]. repeat split.
  exact (holds_Ok _ _ _ Hh E).
Qed.

Lemma sensitivity_dicts_independent_witness :
  (exists s' : Loop,
     forget_iteration (C := Engine.collaborators) Engine.default_config 1 0
       Engine.forget_batch (Engine.loop_at 47) = Ok s'
     /\ retain_sensitivity_dict s' = retain_sensitivity_dict (Engine.loop_at 47)
     /\ (forget_sensitivity_dict s' = forget_sensitivity_dict (Engine.loop_at 47)
         \/ exists m' : Engine.EngineModel,
              Engine.track m' (forget_sensitivity_dict (Engine.loop_at 47)) "lora"
              = Ok (forget_sensitivity_dict s')))
  /\ (exists s' : Loop,
        retain_iteration (C := Engine.collaborators) Engine.default_config 1 0
          Engine.retain_batch (Engine.loop_at 47) = Ok s'
        /\ forget_sensitivity_dict s' = forget_sensitivity_dict (Engine.loop_at 47)
        /\ (retain_sensitivity_dict s' = retain_sensitivity_dict (Engine.loop_at 47)
            \/ exists m' : Engine.EngineModel,
                 Engine.track m' (retain_sensitivity_dict (Engine.loop_at 47)) "lora"
                 = Ok (retain_sensitivity_dict s'))).
Proof.
  pose proof (fun b s' =>
                sensitivity_dicts_independent (C := Engine.collaborators)
                  Engine.default_config Engine.two_groups
                  {| global_step := 0; max_steps := 100 |} 1 0 b
                  (Engine.loop_at 47) s') as T.
  split.
  - run (forget_iteration (C := Engine.collaborators) Engine.default_config 1 0
           Engine.forget_batch (Engine.loop_at 47)) s' E.
    exists s'. split; [exact E|].
    exact (proj1 (proj2 (T Engine.forget_batch s')) E).
  - run (retain_iteration (C := Engine.collaborators) Engine.default_config 1 0
           Engine.retain_batch (Engine.loop_at 47)) s' E.
    exists s'. split; [exact E|].
    exact (proj2 (proj2 (T Engine.retain_batch s')) E).
Defined.

Lemma dual_sensitivity_built_per_decision_witness :
  exists (s' s1 : Loop) (target : Q) (dual : gmap string Q) (pruned : Engine.EngineModel),
    retain_boundary (C := Engine.collaborators) Engine.default_config
      (Engine.loop_at 50) = Ok s'
    /\ existsb is_prune (emitted (Engine.loop_at 50) s') = true
    /\ (forall (name : string) (f : Q),
          forget_sensitivity_dict (Engine.loop_at 50) !! name = Some f ->
          exists r : Q,
            retain_sensitivity_dict s1 !! name = Some r
            /\ dual !! name = Some (DualSensitivityCombiner.combine f r))
    /\ (forall name : string,
          forget_sensitivity_dict (Engine.loop_at 50) !! name = None ->
          dual !! name = None)
    /\ Engine.prune (model s1) dual target (1 # 10) = Ok pruned
    /\ model s' = Engine.clear_grads pruned.
Proof.
  run (retain_boundary (C := Engine.collaborators) Engine.default_config
         (Engine.loop_at 50)) s' E.
  assert (Hh : holds (retain_boundary (C := Engine.collaborators)
                        Engine.default_config (Engine.loop_at 50))
                 (fun a => existsb is_prune (emitted (Engine.loop_at 50) a) = true))
    by (vm_compute; reflexivity).
  pose proof (holds_Ok _ _ _ Hh E) as Hp. cbv beta in Hp.
  destruct (dual_sensitivity_built_per_decision (C := Engine.collaborators)
              Engine.default_config (Engine.loop_at 50) s' E Hp)
    as (s1 & target & dual & log & pruned & _ & _ & H1 & H2 & H3 & H4 & _).
  exists s', s1, target, dual, pruned. auto 10.
Defined.

Lemma unfreeze_iff_grad_witness :
  exists (s' : Loop) (rest : list Call),
    train (C := Engine.collaborators) Engine.grad_config Engine.two_groups
      {| global_step := 0; max_steps := 4 |}
      (Some (fun _ => [Engine.forget_batch; Engine.forget_batch]))
      (fun _ => [Engine.retain_batch; Engine.retain_batch]) 2 = Ok s'
    /\ calls s'
       = calls (setup (C := Engine.collaborators) Engine.grad_config
                  Engine.two_groups {| global_step := 0; max_steps := 4 |})
         ++ rest
    /\ existsb is_unfreeze rest = false
    /\ existsb is_training_step
         (calls (setup (C := Engine.collaborators) Engine.grad_config
                   Engine.two_groups {| global_step := 0; max_steps := 4 |}))
       = false
    /\ (existsb is_unfreeze
          (calls (setup (C := Engine.collaborators) Engine.grad_config
                    Engine.two_groups {| global_step := 0; max_steps := 4 |}))
        = true <-> prune_metric Engine.grad_config = "grad").
Proof.
  run (train (C := Engine.collaborators) Engine.grad_config Engine.two_groups
         {| global_step := 0; max_steps := 4 |}
         (Some (fun _ => [Engine.forget_batch; Engine.forget_batch]))
         (fun _ => [Engine.retain_batch; Engine.retain_batch]) 2) s' E.
  destruct (unfreeze_iff_grad (C := Engine.collaborators) _ _ _ _ _ _ _ E)
    as (rest & H1 & H2 & H3 & H4 & _).
  exists s', rest. auto.
Defined.

Lemma forget_stream_never_prunes_witness :
  (exists s' : Loop,
     forget_boundary (C := Engine.collaborators) Engine.default_config
       (Engine.loop_at 50) = Ok s'
     /\ count_calls is_schedule (emitted (Engine.loop_at 50) s') = 1%nat
     /\ existsb is_combine (emitted (Engine.loop_at 50) s') = false
     /\ existsb is_prune (emitted (Engine.loop_at 50) s') = false)
  /\ (exists s' : Loop,
        forget_iteration (C := Engine.collaborators) Engine.default_config 1 0
          Engine.forget_batch (Engine.loop_at 50) = Ok s'
        /\ existsb is_combine (emitted (Engine.loop_at 50) s') = false
        /\ existsb is_prune (emitted (Engine.loop_at 50) s') = false)
  /\ (exists s' : Loop,
        enumerate_loop (C := Engine.collaborators)
          (forget_iteration Engine.default_config 2) 0
          [Engine.forget_batch; Engine.forget_batch] (Engine.loop_at 49) = Ok s'
        /\ existsb is_combine (emitted (Engine.loop_at 49) s') = false
        /\ existsb is_prune (emitted (Engine.loop_at 49) s') = false).
Proof.
  split; [|split].
  - run (forget_boundary (C := Engine.collaborators) Engine.default_config
           (Engine.loop_at 50)) s' E.
    exists s'. split; [exact E|].
    destruct (proj1 (forget_stream_never_prunes (C := Engine.collaborators)
                       Engine.default_config 1 0 Engine.forget_batch []
                       (Engine.loop_at 50) s') E) as (H1 & H2 & H3 & _).
    auto.
  - run (forget_iteration (C := Engine.collaborators) Engine.default_config 1 0
           Engine.forget_batch (Engine.loop_at 50)) s' E.
    exists s'. split; [exact E|].
    exact (proj1 (proj2 (forget_stream_never_prunes (C := Engine.collaborators)
                           Engine.default_config 1 0 Engine.forget_batch []
                           (Engine.loop_at 50) s')) E).
  - run (enumerate_loop (C := Engine.collaborators)
           (forget_iteration Engine.default_config 2) 0
           [Engine.forget_batch; Engine.forget_batch] (Engine.loop_at 49)) s' E.
    exists s'. split; [exact E|].
    exact (proj2 (proj2 (forget_stream_never_prunes (C := Engine.collaborators)
                           Engine.default_config 2 0 Engine.forget_batch
                           [Engine.forget_batch; Engine.forget_batch]
                           (Engine.loop_at 49) s')) E).
Defined.

End OnTheEngine.

Lemma threshold_gate_witness :
  exists (st' : PruningApplicator.PruningState)
         (d : PruningApplicator.PruningDecision),
    PruningApplicator.unlearning_prune (Engine.pruning Engine.two_groups)
      Engine.weak_scores 1 (1 # 2) = Ok (st', d)
    /\ Engine.weak_scores !! "B" = Some (1 # 10)%Q
    /\ (1 # 10 <= 1 # 2)%Q
    /\ ("B" ∉ PruningApplicator.newly_pruned d)
    /\ ("B" ∈ PruningApplicator.pruned st' ->
        "B" ∈ PruningApplicator.pruned (Engine.pruning Engine.two_groups))
    /\ (PruningApplicator.achieved_ratio d < 1)%Q.
Proof.
  run (PruningApplicator.unlearning_prune (Engine.pruning Engine.two_groups)
         Engine.weak_scores 1 (1 # 2)) r E.
  destruct r as [st' d].
  assert (Hscore : Engine.weak_scores !! "B" = Some (1 # 10)%Q)
    by (vm_compute; reflexivity).
  assert (Hle : (1 # 10 <= 1 # 2)%Q) by (vm_compute; discriminate).
  assert (Hh : holds (PruningApplicator.unlearning_prune
                        (Engine.pruning Engine.two_groups) Engine.weak_scores 1
                        (1 # 2))
                 (fun r => (PruningApplicator.achieved_ratio (snd r) < 1)%Q))
    by (vm_compute; reflexivity).
  destruct (threshold_gate _ _ _ _ _ _ _ _ E Hscore Hle) as [H1 H2].
  exists st', d. repeat split; try assumption.
  exact (holds_Ok _ _ _ Hh E).
Defined.

(** Scenario A of the spec. *)
Example ratio_at_scenario_A :
  RatioScheduler.ratio_at 5 100 (1 # 10) (1 # 10) 0 (1 # 2) = Ok 0%Q
  /\ (exists r : Q,
        RatioScheduler.ratio_at 50 100 (1 # 10) (1 # 10) 0 (1 # 2) = Ok r
        /\ (0 < r)%Q /\ (r < 1 # 2)%Q)
  /\ RatioScheduler.ratio_at 95 100 (1 # 10) (1 # 10) 0 (1 # 2) = Ok (1 # 2)%Q.
Proof.
  split; [reflexivity|]. split; [|reflexivity].
  eexists. split; [reflexivity|]. split; reflexivity.
Qed.

Lemma ratio_at_monotone_witness :
  0 < 100 /\ (0 <= 1 # 2)%Q /\ 5 < 50
  /\ exists r1 r2 : Q,
       RatioScheduler.ratio_at 5 100 (1 # 10) (1 # 10) 0 (1 # 2) = Ok r1
       /\ RatioScheduler.ratio_at 50 100 (1 # 10) (1 # 10) 0 (1 # 2) = Ok r2
       /\ (r1 <= r2)%Q.
Proof.
  assert (H1 : 0 < 100) by reflexivity.
  assert (H2 : (0 <= 1 # 2)%Q) by (vm_compute; discriminate).
  assert (H3 : 5 < 50) by reflexivity.
  repeat split; try assumption.
  exact (ratio_at_monotone 5 50 100 (1 # 10) (1 # 10) 0 (1 # 2) H1 H2 H3).
Defined.

(** C8, as stated, fails: with [init_ratio = 1/2] above
    [final_ratio = 0] the ratio at step 5 is [1/2] and the ratio at the
    later step 95 is [0]. *)
Lemma ratio_at_decreasing_counterexample :
  RatioScheduler.ratio_at 5 100 (1 # 10) (1 # 10) (1 # 2) 0 = Ok (1 # 2)%Q
  /\ RatioScheduler.ratio_at 95 100 (1 # 10) (1 # 10) (1 # 2) 0 = Ok 0%Q
  /\ 5 < 95
  /\ (0 < 1 # 2)%Q.
Proof.
  repeat split.
Qed.

(** * Further properties of the loop *)

Lemma raises_Raise {A : Type} (r : result A) (e : exn) :
  raises r = Some e -> r = Raise e.
Proof.
  destruct r as [a|e']; simpl; [discriminate|]. intros [= ->]. reflexivity.
Qed.

Section EdgesOfTheLoop.
Context {C : Collaborators}.

(** X1. With [gradient_accumulation_steps = 0] every iteration of either
    stream raises [ZeroDivisionError] (at [step % 0], lines 268 and 354),
    whatever the batch and the loop state. *)
Theorem zero_accumulation_steps_raise (cfg : Config) (steps_in_epoch step : Z)
    (inputs : Batch) (s : Loop) :
  gradient_accumulation_steps cfg = 0 ->
  forget_iteration cfg steps_in_epoch step inputs s = Raise ZeroDivisionError
  /\ retain_iteration cfg steps_in_epoch step inputs s = Raise ZeroDivisionError.
Proof.
  intros Hz. unfold forget_iteration, retain_iteration, run_training_step, py_mod.
  rewrite Hz. split; reflexivity.
Qed.

(** X2. With [prune_freq = 0] a retain boundary step whose sensitivity
    update and scheduler call succeed raises [ZeroDivisionError] at the
    gate of line 409, also when the scheduled ratio is outside the pruning
    window; so no retain boundary step completes. *)
Theorem zero_prune_freq_raises (cfg : Config) (s s1 : Loop) (target : Q) :
  prune_freq cfg = 0 ->
  update_retain cfg (clip_gradients cfg s) = Ok s1 ->
  schedule_sparsity_ratio (global_step (state s)) (max_steps (state s))
    (warmup_iters cfg) (cooldown_iters cfg) (init_ratio cfg) (ratio cfg)
  = Ok target ->
  retain_boundary cfg s = Raise ZeroDivisionError
  /\ forall s' : Loop, retain_boundary cfg s <> Ok s'.
Proof.
  intros Hz Hup Hsched.
  assert (Hr : retain_boundary cfg s = Raise ZeroDivisionError).
  { unfold retain_boundary. rewrite Hup. simpl. unfold scheduled_ratio.
    pose proof (update_retain_spec _ _ _ Hup) as (_ & _ & _ & Hs & _).
    destruct (clip_gradients_spec cfg s) as (_ & _ & _ & Hs0 & _).
    rewrite Hs, Hs0, Hsched. simpl.
    unfold prune_block, prune_gate, py_mod. rewrite Hz. reflexivity. }
  split; [exact Hr|]. intros s' H. rewrite Hr in H. discriminate.
Qed.

Lemma dual_sensitivity_loop_raise (items : list (string * Sens))
    (retain : gmap string Sens) (acc : gmap string Dual) (log0 : list Call)
    (e : exn) :
  dual_sensitivity_loop items retain acc log0 = Raise e ->
  exists (name : string) (f : Sens),
    e = KeyError name /\ (name, f) ∈ items /\ retain !! name = None.
Proof.
  revert acc log0. induction items as [|[n f] rest IH]; intros acc log0 H.
  - discriminate.
  - simpl in H. destruct (retain !! n) as [r|] eqn:Hr.
    + destruct (IH _ _ H) as (name & f' & He & Hin & Hnone).
      exists name, f'. split; [assumption|]. split; [right|]; assumption.
    + injection H as <-. exists n, f. split; [reflexivity|]. split; [left | assumption].
Qed.

(** X3. The loop of lines 411-416 succeeds when every name of the forget
    dict is a key of the retain dict, and then the mapping it builds has
    exactly the names of the forget dict (names held only by the retain
    dict are left out); the only exception it can raise is [KeyError],
    on a name of the forget dict that the retain dict lacks. *)
Theorem compute_dual_key_error (forget retain : gmap string Sens) :
  (dom forget ⊆ dom retain ->
   exists (dual : gmap string Dual) (log : list Call),
     compute_dual forget retain = Ok (dual, log) /\ dom dual = dom forget)
  /\ (forall e : exn,
        compute_dual forget retain = Raise e ->
        exists name : string,
          e = KeyError name /\ name ∈ dom forget /\ name ∉ dom retain).
Proof.
  split.
  - intros Hsub. destruct (compute_dual_total _ _ Hsub) as (dual & log & H).
    exists dual, log. split; [assumption|].
    apply compute_dual_spec in H as (_ & Hin & Hout).
    apply set_eq. intros name. rewrite !elem_of_dom. split.
    + intros [d Hd]. destruct (forget !! name) as [f|] eqn:Hf; [eauto|].
      rewrite (Hout _ Hf) in Hd. discriminate.
    + intros [f Hf]. destruct (Hin _ _ Hf) as (r & _ & Hd). eauto.
  - intros e H. unfold compute_dual in H.
    apply dual_sensitivity_loop_raise in H as (name & f & -> & Hin & Hnone).
    exists name. split; [reflexivity|].
    apply elem_of_map_to_list in Hin. split.
    + apply elem_of_dom. eauto.
    + apply not_elem_of_dom. assumption.
Qed.

Lemma grad_norm_argument_Ok (cfg : Config) (u : unit) :
  grad_norm_argument cfg = Ok u -> clipping_enabled cfg = true.
Proof.
  unfold grad_norm_argument, clipping_enabled.
  destruct (max_grad_norm cfg) as [g|]; [|discriminate].
  destruct (Qltb 0 g && negb (deepspeed cfg)); [reflexivity | discriminate].
Qed.

Lemma accumulation_boundary_one (cfg : Config) (total step steps_in_epoch : Z) :
  gradient_accumulation_steps cfg = 1 ->
  accumulation_boundary cfg total step steps_in_epoch = Ok true.
Proof.
  intros H1. unfold accumulation_boundary, py_mod. rewrite H1. simpl.
  rewrite Z.mod_1_r. reflexivity.
Qed.

Lemma count_calls_cons (p : Call -> bool) (c : Call) (l : list Call) :
  count_calls p (c :: l) = ((if p c then 1 else 0) + count_calls p l)%nat.
Proof.
  unfold count_calls. simpl. destruct (p c); reflexivity.
Qed.

Lemma count_clip_calls (p : Call -> bool) (cfg : Config) :
  p clip_grad_norm_call = false -> count_calls p (clip_calls cfg) = O.
Proof.
  intros Hp. apply count_calls_none, existsb_clip_calls, Hp.
Qed.

Lemma forget_boundary_no_training (cfg : Config) (stream : Stream) (s s' : Loop) :
  forget_boundary cfg s = Ok s' ->
  exists l : list Call,
    calls s' = calls s ++ l
    /\ count_calls (is_training_step_of stream) l = O
    /\ total_batched_samples s' = total_batched_samples s
    /\ global_step (state s') = global_step (state s) + 1.
Proof.
  intros H. apply forget_boundary_spec in H as (Hc & _ & _ & Hs & Ht & _).
  eexists. split; [exact Hc|]. rewrite Hs, Ht. simpl.
  rewrite !count_calls_app, count_clip_calls by (destruct stream; reflexivity).
  unfold update_calls. destruct (deepspeed cfg), stream; auto.
Qed.

Lemma retain_boundary_no_training (cfg : Config) (stream : Stream) (s s' : Loop) :
  retain_boundary cfg s = Ok s' ->
  exists l : list Call,
    calls s' = calls s ++ l
    /\ count_calls (is_training_step_of stream) l = O
    /\ total_batched_samples s' = total_batched_samples s
    /\ global_step (state s') = global_step (state s) + 1.
Proof.
  intros H. apply retain_boundary_spec in H
    as (s1 & s2 & target & go & _ & _ & _ & _ & Hc & _ & _ & _ & Hs & Ht).
  eexists. split; [exact Hc|]. rewrite Hs, Ht. simpl.
  rewrite !count_calls_app, count_clip_calls by (destruct stream; reflexivity).
  assert (Hcomb : count_calls (is_training_step_of stream)
                    (compute_dual_sensitivity_call
                       <$> (fst <$> map_to_list (forget_sensitivity_dict s))) = O).
  { apply count_calls_none, existsb_combine_calls. destruct stream; reflexivity. }
  unfold update_calls, optimizer_calls.
  destruct (deepspeed cfg), go, stream;
    repeat (rewrite ?count_calls_cons, ?count_calls_app, ?Hcomb; simpl); auto.
Qed.

Lemma progress_refl (cfg : Config) (s : Loop) : progress cfg 0 0 s s.
Proof.
  exists []. rewrite app_nil_r. simpl. rewrite Z.add_0_r.
  repeat split; auto; lia.
Qed.

Lemma progress_trans (cfg : Config) (f1 r1 f2 r2 : nat) (s1 s2 s3 : Loop) :
  progress cfg f1 r1 s1 s2 -> progress cfg f2 r2 s2 s3 ->
  progress cfg (f1 + f2) (r1 + r2) s1 s3.
Proof.
  intros (l1 & Hc1 & Hf1 & Hr1 & Ht1 & Hlo1 & Hhi1 & Hone1 & Hoff1)
         (l2 & Hc2 & Hf2 & Hr2 & Ht2 & Hlo2 & Hhi2 & Hone2 & Hoff2).
  exists (l1 ++ l2). rewrite Hc2, Hc1, app_assoc, !count_calls_app, Hf1, Hf2, Hr1, Hr2.
  split; [reflexivity|]. split; [reflexivity|]. split; [reflexivity|].
  split; [lia|]. split; [lia|]. split; [lia|]. split.
  - intros H1. rewrite (Hone2 H1), (Hone1 H1). lia.
  - intros Hoff. destruct (Hoff1 Hoff) as [Hg1 Hs1].
    destruct (Hoff2 Hoff) as [Hg2 Hs2].
    split; [congruence|]. rewrite forallb_app, Hs1, Hs2. reflexivity.
Qed.

Lemma training_step_progress (cfg : Config) (stream : Stream) (step : Z)
    (inputs : Batch) (s s1 : Loop) :
  run_training_step cfg stream step inputs s = Ok s1 ->
  exists l : list Call,
    calls s1 = calls s ++ l
    /\ count_calls (is_training_step_of Forget) l
       = (match stream with Forget => 1 | Retain => 0 end)%nat
    /\ count_calls (is_training_step_of Retain) l
       = (match stream with Forget => 0 | Retain => 1 end)%nat
    /\ forallb substep_call l = true
    /\ total_batched_samples s1 = total_batched_samples s + 1
    /\ state s1 = state s.
Proof.
  intros H. apply run_training_step_spec in H as (_ & Hc & _ & _ & Hs & Ht).
  eexists. split; [exact Hc|].
  destruct stream, (deepspeed cfg); auto 10.
Qed.

Lemma iteration_progress (cfg : Config) (stream : Stream)
    (steps_in_epoch step : Z) (inputs : Batch) (s s' : Loop) :
  match stream with
  | Forget => forget_iteration cfg steps_in_epoch step inputs s
  | Retain => retain_iteration cfg steps_in_epoch step inputs s
  end = Ok s' ->
  progress cfg (match stream with Forget => 1 | Retain => 0 end)
    (match stream with Forget => 0 | Retain => 1 end) s s'.
Proof.
  intros H.
  assert (Hcases : exists (s1 : Loop) (b : bool),
             run_training_step cfg stream step inputs s = Ok s1
             /\ accumulation_boundary cfg (total_batched_samples s1) step
                  steps_in_epoch = Ok b
             /\ if b then
                  clipping_enabled cfg = true
                  /\ exists l : list Call,
                       calls s' = calls s1 ++ l
                       /\ count_calls (is_training_step_of Forget) l = O
                       /\ count_calls (is_training_step_of Retain) l = O
                       /\ total_batched_samples s' = total_batched_samples s1
                       /\ global_step (state s') = global_step (state s1) + 1
                else s' = s1).
  { destruct stream; unfold forget_iteration, retain_iteration in H;
      bind_inv H; bind_inv H; exists a, a0; (split; [assumption|]);
      (split; [assumption|]); destruct a0.
    - bind_inv H. bind_inv H. injection H as <-.
      split; [eapply grad_norm_argument_Ok; eassumption|].
      destruct (forget_boundary_no_training cfg Forget _ _ Ha1) as (l & Hc & Hf & Ht & Hg).
      destruct (forget_boundary_no_training cfg Retain _ _ Ha1) as (l' & Hc' & Hr & _).
      assert (l' = l) by (rewrite Hc in Hc'; apply app_inv_head in Hc'; congruence).
      subst l'. exists l. auto 10.
    - injection H as <-. reflexivity.
    - bind_inv H. bind_inv H. injection H as <-.
      split; [eapply grad_norm_argument_Ok; eassumption|].
      destruct (retain_boundary_no_training cfg Forget _ _ Ha1) as (l & Hc & Hf & Ht & Hg).
      destruct (retain_boundary_no_training cfg Retain _ _ Ha1) as (l' & Hc' & Hr & _).
      assert (l' = l) by (rewrite Hc in Hc'; apply app_inv_head in Hc'; congruence).
      subst l'. exists l. auto 10.
    - injection H as <-. reflexivity. }
  destruct Hcases as (s1 & b & Hstep & Hb & Hrest).
  apply training_step_progress in Hstep as (l1 & Hc1 & Hf1 & Hr1 & Hsub1 & Ht1 & Hs1).
  assert (Hone : gradient_accumulation_steps cfg = 1 -> b = true).
  { intros H1. rewrite (accumulation_boundary_one _ _ _ _ H1) in Hb. congruence. }
  destruct b.
  - destruct Hrest as (Hclip & l2 & Hc2 & Hf2 & Hr2 & Ht2 & Hg2).
    exists (l1 ++ l2). rewrite Hc2, Hc1, app_assoc, !count_calls_app, Hf1, Hf2, Hr1, Hr2.
    rewrite Ht2, Ht1, Hg2, Hs1.
    destruct stream; simpl; repeat split; try reflexivity; try lia;
      try (intros Hoff; congruence); congruence.
  - subst s'. exists l1. rewrite Hf1, Hr1, Ht1, Hs1.
    split; [assumption|].
    destruct stream; simpl; repeat split; try reflexivity; try lia;
      try assumption; try (intros H1; specialize (Hone H1); discriminate).
Qed.

Lemma enumerate_loop_progress (cfg : Config) (stream : Stream)
    (steps_in_epoch : Z) (batches : list Batch) :
  forall (step : Z) (s s' : Loop),
    enumerate_loop
      (match stream with
       | Forget => forget_iteration cfg steps_in_epoch
       | Retain => retain_iteration cfg steps_in_epoch
       end) step batches s = Ok s' ->
    exists k : nat,
      (k <= length batches)%nat
      /\ (batches <> [] -> (1 <= k)%nat)
      /\ progress cfg (match stream with Forget => k | Retain => 0 end)
           (match stream with Forget => 0 | Retain => k end) s s'.
Proof.
  induction batches as [|inputs rest IH]; intros step s s' H.
  - injection H as <-. exists O. split; [simpl; lia|].
    split; [intros Hne; contradiction|].
    destruct stream; apply progress_refl.
  - simpl in H. bind_inv H.
    assert (Hit : progress cfg (match stream with Forget => 1 | Retain => 0 end)
                    (match stream with Forget => 0 | Retain => 1 end) s a).
    { apply (iteration_progress cfg stream steps_in_epoch step inputs).
      destruct stream; exact Ha. }
    destruct (should_epoch_stop (state a) || should_training_stop (state a)).
    + injection H as <-. exists 1%nat. split; [simpl; lia|]. split; [lia|].
      destruct stream; exact Hit.
    + destruct (IH _ _ _ H) as (k & Hk & _ & Hp).
      exists (S k). split; [simpl; lia|]. split; [lia|].
      pose proof (progress_trans _ _ _ _ _ _ _ _ Hit Hp) as Hall.
      destruct stream; simpl in Hall; exact Hall.
Qed.

Lemma run_epoch_progress (cfg : Config) (forget_dataloader : option (list Batch))
    (train_dataloader : list Batch) (s s' : Loop) :
  run_epoch cfg forget_dataloader train_dataloader s = Ok s' ->
  exists kf kr : nat,
    (kf <= length (default [] forget_dataloader))%nat
    /\ (kr <= length train_dataloader)%nat
    /\ (train_dataloader <> [] -> (1 <= kr)%nat)
    /\ progress cfg kf kr s s'.
Proof.
  unfold run_epoch. intros H. bind_inv H.
  destruct (enumerate_loop_progress cfg Retain _ _ _ _ _ H) as (kr & Hkr & Hne & Hpr).
  destruct forget_dataloader as [batches|].
  - destruct (enumerate_loop_progress cfg Forget _ _ _ _ _ Ha) as (kf & Hkf & _ & Hpf).
    exists kf, kr. repeat split; try assumption.
    pose proof (progress_trans _ _ _ _ _ _ _ _ Hpf Hpr) as Hall.
    rewrite Nat.add_0_r in Hall. exact Hall.
  - injection Ha as <-. exists O, kr. repeat split; try assumption. simpl. lia.
Qed.

Lemma run_epochs_progress (cfg : Config)
    (forget_dataloader : option (nat -> list Batch))
    (train_dataloader : nat -> list Batch) (remaining : nat) :
  forall (epoch : nat) (s s' : Loop),
    run_epochs cfg forget_dataloader train_dataloader remaining epoch s = Ok s' ->
    exists kf kr : nat, progress cfg kf kr s s'.
Proof.
  induction remaining as [|remaining IH]; intros epoch s s' H.
  - injection H as <-. exists O, O. apply progress_refl.
  - simpl in H. bind_inv H.
    apply run_epoch_progress in Ha as (kf & kr & _ & _ & _ & Hp).
    destruct (should_training_stop (state a)).
    + injection H as <-. eauto.
    + destruct (IH _ _ _ H) as (kf' & kr' & Hp').
      exists (kf + kf')%nat, (kr + kr')%nat. eapply progress_trans; eassumption.
Qed.

Lemma progress_emitted (cfg : Config) (kf kr : nat) (s s' : Loop) :
  progress cfg kf kr s s' ->
  calls s' = calls s ++ emitted s s'
  /\ count_calls (is_training_step_of Forget) (emitted s s') = kf
  /\ count_calls (is_training_step_of Retain) (emitted s s') = kr
  /\ (clipping_enabled cfg = false -> forallb substep_call (emitted s s') = true).
Proof.
  intros (l & Hc & Hf & Hr & _ & _ & _ & _ & Hoff).
  rewrite (emitted_app _ _ _ Hc). repeat split; try assumption.
  intros H. apply Hoff, H.
Qed.



(** X5. Every batch an epoch processes is counted once in
    [total_batched_samples] (lines 267 and 349), on both streams: after an
    epoch the counter has grown by the number of training steps taken,
    which is at most the number of forget batches plus the number of
    retain batches. *)
Theorem batches_counted_once (cfg : Config)
    (forget_dataloader : option (list Batch)) (train_dataloader : list Batch)
    (s s' : Loop) :
  run_epoch cfg forget_dataloader train_dataloader s = Ok s' ->
  total_batched_samples s'
  = total_batched_samples s
    + Z.of_nat (count_calls (is_training_step_of Forget) (emitted s s')
                + count_calls (is_training_step_of Retain) (emitted s s'))
  /\ (count_calls (is_training_step_of Forget) (emitted s s')
      <= length (default [] forget_dataloader))%nat
  /\ (count_calls (is_training_step_of Retain) (emitted s s')
      <= length train_dataloader)%nat.
Proof.
  intros H. apply run_epoch_progress in H as (kf & kr & Hkf & Hkr & _ & Hp).
  pose proof (progress_emitted _ _ _ _ _ Hp) as (_ & -> & -> & _).
  destruct Hp as (l & _ & _ & _ & Ht & _). auto.
Qed.

(** X6. [global_step] moves by at most one per batch: over an epoch it
    never decreases and grows by no more than [total_batched_samples]
    does; with [gradient_accumulation_steps = 1] every batch is a
    boundary and the two counters grow by the same amount. *)
Theorem global_step_at_most_one_per_batch (cfg : Config)
    (forget_dataloader : option (list Batch)) (train_dataloader : list Batch)
    (s s' : Loop) :
  run_epoch cfg forget_dataloader train_dataloader s = Ok s' ->
  global_step (state s) <= global_step (state s')
  /\ global_step (state s') - global_step (state s)
     <= total_batched_samples s' - total_batched_samples s
  /\ (gradient_accumulation_steps cfg = 1 ->
      global_step (state s') - global_step (state s)
      = total_batched_samples s' - total_batched_samples s).
Proof.
  intros H. apply run_epoch_progress in H as (kf & kr & _ & _ & _ & Hp).
  destruct Hp as (l & _ & _ & _ & Ht & Hlo & Hhi & Hone & _).
  split; [assumption|]. split; [lia|].
  intros H1. rewrite (Hone H1). lia.
Qed.

(** X7. The [break] of lines 344-345 leaves only the forget loop: an
    epoch over a non-empty retain loader takes at least one training step
    on a retain batch, whatever the stop flags were during the forget
    pass; and with no forget dataset it takes no forget training step. *)
Theorem retain_pass_runs_after_forget_break (cfg : Config)
    (forget_dataloader : option (list Batch)) (train_dataloader : list Batch)
    (s s' : Loop) :
  run_epoch cfg forget_dataloader train_dataloader s = Ok s' ->
  (train_dataloader <> [] ->
   (1 <= count_calls (is_training_step_of Retain) (emitted s s'))%nat)
  /\ (forget_dataloader = None ->
      count_calls (is_training_step_of Forget) (emitted s s') = O).
Proof.
  intros H. apply run_epoch_progress in H as (kf & kr & Hkf & _ & Hne & Hp).
  pose proof (progress_emitted _ _ _ _ _ Hp) as (_ & -> & -> & _).
  split; [exact Hne|]. intros ->. simpl in Hkf. lia.
Qed.

(** X8. A run that starts at [global_step = 0] with gradient clipping off
    returns no [TrainOutput]: if the epochs complete, the division by
    [self.state.global_step] at line 471 raises [ZeroDivisionError]. *)
Theorem no_train_output_without_clipping (cfg : Config) (m : Model)
    (st : TrainerState) (forget_dataloader : option (nat -> list Batch))
    (train_dataloader : nat -> list Batch) (num_epochs : nat)
    (total_loss_scalar : Q) (s : Loop) :
  clipping_enabled cfg = false ->
  global_step st = 0 ->
  train cfg m st forget_dataloader train_dataloader num_epochs = Ok s ->
  train_output total_loss_scalar s = Raise ZeroDivisionError.
Proof.
  intros Hoff H0 H. unfold train in H.
  apply run_epochs_progress in H as (kf & kr & Hp).
  destruct Hp as (l & _ & _ & _ & _ & _ & _ & _ & Hg).
  destruct (Hg Hoff) as [Hsame _].
  assert (Hst : state (setup cfg m st) = st).
  { unfold setup. destruct (String.eqb (prune_metric cfg) "grad"); reflexivity. }
  unfold train_output. rewrite Hsame, Hst, H0. reflexivity.
Qed.

(** ** Completed iterations at an accumulation boundary *)

Lemma iteration_inv (cfg : Config) (stream : Stream) (steps_in_epoch step : Z)
    (inputs : Batch) (s s' : Loop) :
  match stream with
  | Forget => forget_iteration cfg steps_in_epoch step inputs s
  | Retain => retain_iteration cfg steps_in_epoch step inputs s
  end = Ok s' ->
  exists (s1 : Loop) (b : bool),
    run_training_step cfg stream step inputs s = Ok s1
    /\ accumulation_boundary cfg (total_batched_samples s + 1) step
         steps_in_epoch = Ok b
    /\ if b then
         clipping_enabled cfg = true
         /\ match stream with
            | Forget => forget_boundary cfg s1
            | Retain => retain_boundary cfg s1
            end = Ok s'
       else s' = s1.
Proof.
  intros H.
  destruct stream; unfold forget_iteration, retain_iteration in H;
    bind_inv H; bind_inv H; exists a, a0;
    pose proof (run_training_step_spec _ _ _ _ _ _ Ha) as (_ & _ & _ & _ & _ & Ht);
    rewrite Ht in Ha0; (split; [assumption|]); (split; [assumption|]);
    destruct a0.
  - bind_inv H. bind_inv H. injection H as <-.
    split; [eapply grad_norm_argument_Ok; eassumption | assumption].
  - injection H as <-. reflexivity.
  - bind_inv H. bind_inv H. injection H as <-.
    split; [eapply grad_norm_argument_Ok; eassumption | assumption].
  - injection H as <-. reflexivity.
Qed.

Lemma clipping_enabled_true (cfg : Config) :
  clipping_enabled cfg = true ->
  deepspeed cfg = false
  /\ exists g : Q, max_grad_norm cfg = Some g /\ Qltb 0 g = true.
Proof.
  unfold clipping_enabled. destruct (max_grad_norm cfg) as [g|]; [|discriminate].
  intros H. apply andb_prop in H as [Hg Hd].
  destruct (deepspeed cfg); [discriminate|]. eauto.
Qed.

Lemma run_training_step_model (cfg : Config) (stream : Stream) (step : Z)
    (inputs : Batch) (s s1 : Loop) :
  deepspeed cfg = false ->
  run_training_step cfg stream step inputs s = Ok s1 ->
  model s1 = training_step (model s) inputs.
Proof.
  intros Hd H. unfold run_training_step in H. bind_inv H.
  rewrite Hd in H. injection H as <-. reflexivity.
Qed.

Lemma training_step_calls_count (cfg : Config) (stream : Stream) (step : Z)
    (inputs : Batch) (s s1 : Loop) (p : Call -> bool) :
  (forall st, p (training_step_call st) = false) ->
  p deepspeed_step_call = false ->
  run_training_step cfg stream step inputs s = Ok s1 ->
  exists l : list Call,
    calls s1 = calls s ++ l /\ count_calls p l = O /\ existsb p l = false
    /\ state s1 = state s
    /\ forget_sensitivity_dict s1 = forget_sensitivity_dict s
    /\ retain_sensitivity_dict s1 = retain_sensitivity_dict s.
Proof.
  intros Hp Hd H. apply run_training_step_spec in H as (_ & Hc & Hf & Hr & Hs & _).
  eexists. split; [exact Hc|].
  assert (He : existsb p (training_step_call stream
                            :: (if deepspeed cfg then [deepspeed_step_call] else []))
               = false).
  { simpl. rewrite Hp. destruct (deepspeed cfg); simpl; rewrite ?Hd; reflexivity. }
  split; [apply count_calls_none, He|]. auto.
Qed.

(** C3. At an accumulation boundary, a completed iteration of the forget
    stream calls neither [optimizer.step()] nor [lr_scheduler.step()]: it
    updates the forget sensitivity dict from its own old value, adds one
    to [global_step], leaves the retain dict as it was, and leaves the
    model as the training step and the clipping made it, with its
    gradients zeroed.  A completed iteration of the retain stream at an
    accumulation boundary calls [optimizer.step()] once and
    [lr_scheduler.step()] once.  (An iteration completes at a boundary only
    with gradient clipping on, hence with DeepSpeed off.) *)
Theorem optimizer_steps_on_retain_boundaries_only (cfg : Config)
    (steps_in_epoch step : Z) (inputs : Batch) (s s' : Loop) :
  accumulation_boundary cfg (total_batched_samples s + 1) step steps_in_epoch
  = Ok true ->
  (forget_iteration cfg steps_in_epoch step inputs s = Ok s' ->
   count_calls is_optimizer_step (emitted s s') = O
   /\ count_calls is_lr_scheduler_step (emitted s s') = O
   /\ global_step (state s') = global_step (state s) + 1
   /\ retain_sensitivity_dict s' = retain_sensitivity_dict s
   /\ deepspeed cfg = false
   /\ exists g : Q,
        max_grad_norm cfg = Some g
        /\ update_sensitivity_dict
             (clip_grad_norm_ (training_step (model s) inputs) g)
             (forget_sensitivity_dict s) (prune_metric cfg)
           = Ok (forget_sensitivity_dict s')
        /\ model s'
           = zero_grad (clip_grad_norm_ (training_step (model s) inputs) g))
  /\ (retain_iteration cfg steps_in_epoch step inputs s = Ok s' ->
      count_calls is_optimizer_step (emitted s s') = 1%nat
      /\ count_calls is_lr_scheduler_step (emitted s s') = 1%nat
      /\ global_step (state s') = global_step (state s) + 1
      /\ deepspeed cfg = false).
Proof.
  intros Hb. split; intros H.
  - destruct (iteration_inv cfg Forget _ _ _ _ _ H) as (s1 & b & Hstep & Hb' & Hrest).
    assert (b = true) by congruence. subst b. destruct Hrest as [Hclip Hbd].
    destruct (clipping_enabled_true _ Hclip) as (Hd & g & Hg & Hpos).
    pose proof (run_training_step_model _ _ _ _ _ _ Hd Hstep) as Hm1.
    destruct (training_step_calls_count _ _ _ _ _ _ is_optimizer_step
                ltac:(reflexivity) eq_refl Hstep) as (l1 & Hc1 & Ho1 & _ & Hs1 & Hf1 & Hr1).
    destruct (training_step_calls_count _ _ _ _ _ _ is_lr_scheduler_step
                ltac:(reflexivity) eq_refl Hstep) as (l1' & Hc1' & Hl1 & _).
    assert (l1' = l1) by (rewrite Hc1 in Hc1'; apply app_inv_head in Hc1'; congruence).
    subst l1'.
    destruct (proj1 (boundary_optimizer_calls cfg s1 s') Hbd) as [Ho2 Hl2].
    pose proof (forget_boundary_extends _ _ _ Hbd) as Hext.
    apply extends_emitted in Hext as (Hc2 & _).
    rewrite (emitted_trans _ _ _ _ _ Hc1 Hc2), !count_calls_app, Ho1, Ho2, Hl1, Hl2.
    apply forget_boundary_spec in Hbd as (_ & Hm & Hr & Hs & _ & Hf).
    rewrite Hd in Hf.
    assert (Hclipm : model (clip_gradients cfg s1)
                     = clip_grad_norm_ (training_step (model s) inputs) g).
    { unfold clip_gradients. rewrite Hg, Hpos, Hd, <- Hm1. reflexivity. }
    rewrite Hclipm, Hf1 in Hf. rewrite Hclipm in Hm.
    rewrite Hs, Hs1, Hr, Hr1. simpl.
    repeat split; try reflexivity; try assumption.
    exists g. auto.
  - destruct (iteration_inv cfg Retain _ _ _ _ _ H) as (s1 & b & Hstep & Hb' & Hrest).
    assert (b = true) by congruence. subst b. destruct Hrest as [Hclip Hbd].
    destruct (clipping_enabled_true _ Hclip) as (Hd & _).
    destruct (training_step_calls_count _ _ _ _ _ _ is_optimizer_step
                ltac:(reflexivity) eq_refl Hstep) as (l1 & Hc1 & Ho1 & _ & Hs1 & _).
    destruct (training_step_calls_count _ _ _ _ _ _ is_lr_scheduler_step
                ltac:(reflexivity) eq_refl Hstep) as (l1' & Hc1' & Hl1 & _).
    assert (l1' = l1) by (rewrite Hc1 in Hc1'; apply app_inv_head in Hc1'; congruence).
    subst l1'.
    destruct (proj2 (boundary_optimizer_calls cfg s1 s') Hbd) as [Ho2 Hl2].
    rewrite Hd in Hl2.
    pose proof (retain_boundary_extends _ _ _ Hbd) as Hext.
    apply extends_emitted in Hext as (Hc2 & _).
    rewrite (emitted_trans _ _ _ _ _ Hc1 Hc2), !count_calls_app, Ho1, Ho2, Hl1, Hl2.
    apply retain_boundary_spec in Hbd
      as (_ & _ & _ & _ & _ & _ & _ & _ & _ & _ & _ & _ & Hs & _).
    rewrite Hs, Hs1. simpl. auto.
Qed.

(** ** Runs that no stop flag interrupts *)

Lemma enumerate_loop_runs_all (cfg : Config) (stream : Stream)
    (steps_in_epoch : Z) (batches : list Batch) :
  forall (step : Z) (s s' : Loop),
    (forall st : TrainerState,
        max_steps st = max_steps (state s) ->
        global_step st <= global_step (state s) + Z.of_nat (length batches) ->
        should_epoch_stop st = false /\ should_training_stop st = false) ->
    enumerate_loop
      (match stream with
       | Forget => forget_iteration cfg steps_in_epoch
       | Retain => retain_iteration cfg steps_in_epoch
       end) step batches s = Ok s' ->
    progress cfg (match stream with Forget => length batches | Retain => O end)
      (match stream with Forget => O | Retain => length batches end) s s'
    /\ max_steps (state s') = max_steps (state s).
Proof.
  induction batches as [|inputs rest IH]; intros step s s' Hns H.
  - injection H as <-. split; [|reflexivity].
    destruct stream; apply progress_refl.
  - simpl in H. bind_inv H.
    assert (Hit : progress cfg (match stream with Forget => 1 | Retain => 0 end)
                    (match stream with Forget => 0 | Retain => 1 end) s a).
    { apply (iteration_progress cfg stream steps_in_epoch step inputs).
      destruct stream; exact Ha. }
    assert (Hm : max_steps (state a) = max_steps (state s)).
    { assert (Hext : extends epoch_call s a).
      { destruct stream.
        - eapply extends_weaken; [exact forget_stream_call_epoch|].
          eapply forget_iteration_extends. exact Ha.
        - eapply extends_weaken; [exact retain_stream_call_epoch|].
          eapply retain_iteration_extends. exact Ha. }
      destruct Hext as (l & _ & _ & _ & Hmax & _). exact Hmax. }
    assert (Hg : global_step (state a) <= global_step (state s) + 1).
    { destruct Hit as (l & _ & _ & _ & _ & _ & Hhi & _).
      destruct stream; simpl in Hhi; lia. }
    destruct (Hns (state a) Hm) as [He Hs]; [simpl; lia|].
    rewrite He, Hs in H. simpl in H.
    destruct (IH (step + 1) a s') as [Hp Hm']; [|exact H|].
    + intros st Hst Hgst. apply Hns; [congruence | simpl; lia].
    + split; [|congruence].
      pose proof (progress_trans _ _ _ _ _ _ _ _ Hit Hp) as Hall.
      destruct stream; simpl in Hall; exact Hall.
Qed.

Lemma run_epoch_runs_all (cfg : Config) (forget_dataloader : option (list Batch))
    (train_dataloader : list Batch) (s s' : Loop) :
  (forall st : TrainerState,
      max_steps st = max_steps (state s) ->
      global_step st
      <= global_step (state s)
         + Z.of_nat (length (default [] forget_dataloader)
                     + length train_dataloader) ->
      should_epoch_stop st = false /\ should_training_stop st = false) ->
  run_epoch cfg forget_dataloader train_dataloader s = Ok s' ->
  progress cfg (length (default [] forget_dataloader)) (length train_dataloader)
    s s'.
Proof.
  intros Hns H. unfold run_epoch in H. bind_inv H.
  assert (Hf : progress cfg (length (default [] forget_dataloader)) O s a
               /\ max_steps (state a) = max_steps (state s)).
  { destruct forget_dataloader as [batches|].
    - apply (enumerate_loop_runs_all cfg Forget
               (Z.of_nat (length train_dataloader)) batches 0 s a); [|exact Ha].
      intros st Hm Hg. apply Hns; [assumption | simpl; lia].
    - injection Ha as <-. split; [apply progress_refl | reflexivity]. }
  destruct Hf as [Hpf Hm].
  assert (Hg : global_step (state a)
               <= global_step (state s)
                  + Z.of_nat (length (default [] forget_dataloader))).
  { destruct Hpf as (l & _ & _ & _ & _ & _ & Hhi & _).
    rewrite Nat.add_0_r in Hhi. exact Hhi. }
  destruct (enumerate_loop_runs_all cfg Retain
              (Z.of_nat (length train_dataloader)) train_dataloader 0 a s')
    as [Hpr _]; [|exact H|].
  - intros st Hst Hgst. apply Hns; [congruence | lia].
  - pose proof (progress_trans _ _ _ _ _ _ _ _ Hpf Hpr) as Hall.
    rewrite Nat.add_0_r in Hall. exact Hall.
Qed.

(** C10. [state.global_step] goes up by exactly one in every completed
    iteration that is an accumulation boundary, on the forget stream as on
    the retain stream, and stays put in the others; the value it had is
    the step handed to the scheduler and, on the retain stream, to the
    cadence test of the pruning gate.  Over an epoch the scheduler is asked
    for consecutive values of the counter; with
    [gradient_accumulation_steps = 1] the counter grows by the number of
    forget batches plus the number of retain batches trained on, and when
    no stop is requested these are all the batches of both loaders. *)
Theorem global_step_counts_both_streams (cfg : Config) (stream : Stream)
    (steps_in_epoch step : Z) (inputs : Batch)
    (forget_dataloader : option (list Batch)) (train_dataloader : list Batch)
    (s s' : Loop) :
  (match stream with
   | Forget => forget_iteration cfg steps_in_epoch step inputs s
   | Retain => retain_iteration cfg steps_in_epoch step inputs s
   end = Ok s' ->
   exists b : bool,
     accumulation_boundary cfg (total_batched_samples s + 1) step
       steps_in_epoch = Ok b
     /\ global_step (state s')
        = global_step (state s) + (if b then 1 else 0)
     /\ schedule_steps (emitted s s')
        = (if b then [global_step (state s)] else [])
     /\ (stream = Retain -> b = true ->
         exists (target : Q) (go : bool),
           schedule_sparsity_ratio (global_step (state s))
             (max_steps (state s)) (warmup_iters cfg) (cooldown_iters cfg)
             (init_ratio cfg) (ratio cfg) = Ok target
           /\ prune_gate cfg (global_step (state s)) target = Ok go
           /\ existsb is_prune (emitted s s') = go))
  /\ (run_epoch cfg forget_dataloader train_dataloader s = Ok s' ->
      schedule_steps (emitted s s')
      = seqZ (global_step (state s))
          (global_step (state s') - global_step (state s))
      /\ (gradient_accumulation_steps cfg = 1 ->
          global_step (state s') - global_step (state s)
          = Z.of_nat
              (count_calls (is_training_step_of Forget) (emitted s s')
               + count_calls (is_training_step_of Retain) (emitted s s')))
      /\ ((forall st : TrainerState,
              max_steps st = max_steps (state s) ->
              global_step st
              <= global_step (state s)
                 + Z.of_nat (length (default [] forget_dataloader)
                             + length train_dataloader) ->
              should_epoch_stop st = false /\ should_training_stop st = false) ->
          count_calls (is_training_step_of Forget) (emitted s s')
          = length (default [] forget_dataloader)
          /\ count_calls (is_training_step_of Retain) (emitted s s')
             = length train_dataloader
          /\ (gradient_accumulation_steps cfg = 1 ->
              global_step (state s')
              = global_step (state s)
                + Z.of_nat (length (default [] forget_dataloader)
                            + length train_dataloader)))).
Proof.
  split; intros H.
  - destruct (iteration_inv cfg stream _ _ _ _ _ H) as (s1 & b & Hstep & Hb & Hrest).
    assert (Hext : extends epoch_call s s').
    { destruct stream.
      - eapply extends_weaken; [exact forget_stream_call_epoch|].
        eapply forget_iteration_extends. exact H.
      - eapply extends_weaken; [exact retain_stream_call_epoch|].
        eapply retain_iteration_extends. exact H. }
    apply extends_emitted in Hext as (_ & _ & Hsched).
    destruct (training_step_calls_count _ _ _ _ _ _ is_prune
                ltac:(reflexivity) eq_refl Hstep) as (l1 & Hc1 & _ & Hp1 & Hs1 & _).
    exists b. split; [assumption|]. destruct b.
    + destruct Hrest as [_ Hbd].
      assert (Hgs : global_step (state s') = global_step (state s) + 1).
      { destruct stream.
        - apply forget_boundary_spec in Hbd as (_ & _ & _ & Hs & _).
          rewrite Hs, Hs1. reflexivity.
        - apply retain_boundary_spec in Hbd
            as (_ & _ & _ & _ & _ & _ & _ & _ & _ & _ & _ & _ & Hs & _).
          rewrite Hs, Hs1. reflexivity. }
      split; [exact Hgs|]. split.
      * rewrite Hsched, Hgs.
        replace (global_step (state s) + 1 - global_step (state s)) with 1 by lia.
        reflexivity.
      * intros -> _.
        pose proof (retain_boundary_prune _ _ _ Hbd)
          as (target & go & Hsch & Hgo & Hex).
        apply retain_boundary_extends, extends_emitted in Hbd as (Hc2 & _).
        rewrite Hs1 in Hsch, Hgo. exists target, go.
        split; [assumption|]. split; [assumption|].
        rewrite (emitted_trans _ _ _ _ _ Hc1 Hc2), existsb_app, Hp1, Hex.
        reflexivity.
    + subst s'. rewrite Hs1 in *. split; [lia|]. split.
      * rewrite Hsched, Z.sub_diag. reflexivity.
      * intros _ Hfalse. discriminate.
  - pose proof (run_epoch_extends _ _ _ _ _ H) as Hext.
    apply extends_emitted in Hext as (_ & _ & Hsched).
    split; [exact Hsched|]. split.
    + intros H1. destruct (run_epoch_progress _ _ _ _ _ H)
        as (kf & kr & _ & _ & _ & Hp).
      pose proof (progress_emitted _ _ _ _ _ Hp) as (_ & -> & -> & _).
      destruct Hp as (l & _ & _ & _ & _ & _ & _ & Hone & _).
      rewrite (Hone H1). lia.
    + intros Hns. pose proof (run_epoch_runs_all _ _ _ _ _ Hns H) as Hp.
      pose proof (progress_emitted _ _ _ _ _ Hp) as (_ & Hf & Hr & _).
      destruct Hp as (l & _ & _ & _ & _ & _ & _ & Hone & _).
      split; [exact Hf|]. split; [exact Hr|]. exact Hone.
Qed.

End EdgesOfTheLoop.

(** * Properties of the set-up arithmetic *)

Lemma py_floordiv_Ok (a b q : Z) : py_floordiv a b = Ok q -> b <> 0 /\ q = a / b.
Proof.
  unfold py_floordiv. destruct (Z.eqb_spec b 0); [discriminate|].
  intros [= <-]. auto.
Qed.




(** X11. After a successful set-up, locating a checkpoint (lines 188-194)
    never raises, and it splits the saved step into whole epochs and a
    remainder: [epochs_trained * n <= global_step < (epochs_trained + 1) * n];
    unless [ignore_data_skip] is set, [steps_trained_in_current_epoch] is
    that remainder in batches,
    [epochs_trained * n * g + steps_trained = global_step * g], and
    otherwise it is 0. *)
Theorem resume_position_decomposes (cfg : Config) (args : TrainingArguments)
    (d : Dataloaders) (c : TrainingControl) (ignore_data_skip : bool)
    (saved_global_step : Z) :
  training_control cfg args d = Control c ->
  exists epochs_trained steps_trained : Z,
    resume_position cfg ignore_data_skip saved_global_step
      (num_update_steps_per_epoch c) = Ok (epochs_trained, steps_trained)
    /\ epochs_trained * num_update_steps_per_epoch c <= saved_global_step
    /\ saved_global_step < (epochs_trained + 1) * num_update_steps_per_epoch c
    /\ (if ignore_data_skip then steps_trained = 0
        else epochs_trained * num_update_steps_per_epoch c
               * gradient_accumulation_steps cfg + steps_trained
             = saved_global_step * gradient_accumulation_steps cfg).
Proof.
  intros H.
  assert (Hn : 1 <= num_update_steps_per_epoch c).
  { unfold training_control in H.
    destruct (known_lengths d) as [[fl rl]|].
    - destruct (py_floordiv _ _) as [q|e]; [|discriminate].
      destruct (0 <? args_max_steps args); injection H as <-; simpl; lia.
    - destruct (Z.ltb_spec 0 (args_max_steps args)); [|discriminate].
      injection H as <-. simpl. lia. }
  set (n := num_update_steps_per_epoch c) in *.
  pose proof (Z.div_mod saved_global_step n ltac:(lia)) as Hdm.
  pose proof (Z.mod_pos_bound saved_global_step n ltac:(lia)) as Hb.
  unfold resume_position, py_floordiv, py_mod.
  destruct (Z.eqb_spec n 0) as [|_]; [lia|]. simpl.
  destruct ignore_data_skip; simpl; do 2 eexists; (split; [reflexivity|]);
    repeat split; nia.
Qed.

(** X12. [state.epoch] as set at lines 337 and 436: the division raises
    [ZeroDivisionError] when [steps_in_epoch] is 0; for a positive
    [steps_in_epoch] and a step index from [enumerate] the value is above
    [epoch], and it stays within [epoch + 1] exactly when
    [step + 1 <= steps_in_epoch], which holds on the retain loader (whose
    length [steps_in_epoch] is) and fails on a forget loader from its
    batch number [steps_in_epoch] on. *)
Theorem epoch_progress_range (epoch step steps_in_epoch : Z) :
  (steps_in_epoch = 0 -> epoch_progress epoch step steps_in_epoch
                         = Raise ZeroDivisionError)
  /\ (0 < steps_in_epoch -> 0 <= step ->
      exists v : Q,
        epoch_progress epoch step steps_in_epoch = Ok v
        /\ (inject_Z epoch < v)%Q
        /\ ((v <= inject_Z epoch + 1)%Q <-> step + 1 <= steps_in_epoch)).
Proof.
  unfold epoch_progress. split.
  - intros ->. reflexivity.
  - intros Hn Hs. destruct (Z.eqb_spec steps_in_epoch 0); [lia|].
    eexists. split; [reflexivity|]. rewrite Z.add_0_r.
    assert (Hy : (0 < inject_Z steps_in_epoch)%Q).
    { replace 0%Q with (inject_Z 0) by reflexivity. rewrite <- Zlt_Qlt. lia. }
    assert (Hx : (0 < inject_Z (step + 1))%Q).
    { replace 0%Q with (inject_Z 0) by reflexivity. rewrite <- Zlt_Qlt. lia. }
    assert (Hq : (inject_Z (step + 1) / inject_Z steps_in_epoch
                  * inject_Z steps_in_epoch == inject_Z (step + 1))%Q).
    { unfold Qdiv. rewrite <- Qmult_assoc, (Qmult_comm (/ _)), Qmult_inv_r; [ring|].
      intros Heq. rewrite Heq in Hy. apply (Qlt_irrefl _ Hy). }
    assert (Hpos : (0 < inject_Z (step + 1) / inject_Z steps_in_epoch)%Q).
    { apply Qlt_shift_div_l; [assumption|]. lra. }
    split; [lra|]. rewrite (Zle_Qle (step + 1) steps_in_epoch). split.
    + intros Hle. nra.
    + intros Hle.
      assert (inject_Z (step + 1) / inject_Z steps_in_epoch <= 1)%Q
        by (apply Qle_shift_div_r; [assumption | lra]).
      lra.
Qed.

Section Resuming.
Context {C : Collaborators}.

(** X13. Resuming from a checkpoint whose step has reached the planned
    epochs trains nothing: when
    [num_train_epochs * num_update_steps_per_epoch <= global_step], the
    range [range(epochs_trained, num_train_epochs)] of line 234 is empty
    and the loop state is returned as it is. *)
Theorem resume_past_planned_epochs (cfg : Config) (args : TrainingArguments)
    (d : Dataloaders) (c : TrainingControl) (ignore_data_skip : bool)
    (saved_global_step epochs_trained steps_trained : Z)
    (forget_dataloader : option (nat -> list Batch))
    (train_dataloader : nat -> list Batch) (s : Loop) :
  training_control cfg args d = Control c ->
  num_train_epochs c * num_update_steps_per_epoch c <= saved_global_step ->
  resume_position cfg ignore_data_skip saved_global_step
    (num_update_steps_per_epoch c) = Ok (epochs_trained, steps_trained) ->
  resumed_epochs cfg forget_dataloader train_dataloader
    (Z.to_nat epochs_trained) (Z.to_nat (num_train_epochs c)) s = Ok s.
Proof.
  intros Hc Hle Hr.
  assert (Hn : 1 <= num_update_steps_per_epoch c).
  { unfold training_control in Hc.
    destruct (known_lengths d) as [[fl rl]|].
    - destruct (py_floordiv _ _) as [q|e]; [|discriminate].
      destruct (0 <? args_max_steps args); injection Hc as <-; simpl; lia.
    - destruct (Z.ltb_spec 0 (args_max_steps args)); [|discriminate].
      injection Hc as <-. simpl. lia. }
  unfold resume_position in Hr. bind_inv Hr.
  apply py_floordiv_Ok in Ha as [_ ->].
  assert (He : epochs_trained
               = saved_global_step / num_update_steps_per_epoch c).
  { destruct ignore_data_skip; simpl in Hr.
    - injection Hr as <- _. reflexivity.
    - bind_inv Hr. injection Hr as <- _. reflexivity. }
  assert (Hge : num_train_epochs c <= epochs_trained).
  { rewrite He. apply Z.div_le_lower_bound; lia. }
  unfold resumed_epochs.
  replace (Z.to_nat (num_train_epochs c) - Z.to_nat epochs_trained)%nat
    with O by lia.
  reflexivity.
Qed.

End Resuming.

(** * The further properties on the concrete engine *)

Section EdgesOnTheEngine.
#[local] Existing Instance Engine.collaborators.

Lemma zero_accumulation_steps_raise_witness :
  gradient_accumulation_steps Engine.zero_accumulation_config = 0
  /\ forget_iteration (C := Engine.collaborators) Engine.zero_accumulation_config
       1 0 Engine.forget_batch (Engine.loop_at 0) = Raise ZeroDivisionError
  /\ retain_iteration (C := Engine.collaborators) Engine.zero_accumulation_config
       1 0 Engine.forget_batch (Engine.loop_at 0) = Raise ZeroDivisionError.
Proof.
  split; [reflexivity|].
  exact (zero_accumulation_steps_raise (C := Engine.collaborators)
           Engine.zero_accumulation_config 1 0 Engine.forget_batch
           (Engine.loop_at 0) eq_refl).
Defined.

Lemma zero_prune_freq_raises_witness :
  exists (s1 : Loop) (target : Q),
    prune_freq Engine.zero_prune_freq_config = 0
    /\ update_retain (C := Engine.collaborators) Engine.zero_prune_freq_config
         (clip_gradients Engine.zero_prune_freq_config (Engine.loop_at 47))
       = Ok s1
    /\ RatioScheduler.ratio_at 47 100 (1 # 10) (1 # 10) 0 (1 # 2) = Ok target
    /\ retain_boundary (C := Engine.collaborators) Engine.zero_prune_freq_config
         (Engine.loop_at 47) = Raise ZeroDivisionError.
Proof.
  run (update_retain (C := Engine.collaborators) Engine.zero_prune_freq_config
         (clip_gradients Engine.zero_prune_freq_config (Engine.loop_at 47))) s1 E.
  run (RatioScheduler.ratio_at 47 100 (1 # 10) (1 # 10) 0 (1 # 2)) target Et.
  exists s1, target. split; [reflexivity|]. split; [exact E|]. split; [exact Et|].
  exact (proj1 (zero_prune_freq_raises (C := Engine.collaborators)
                  Engine.zero_prune_freq_config (Engine.loop_at 47) s1 target
                  eq_refl E Et)).
Defined.

Lemma compute_dual_key_error_witness :
  (exists (dual : gmap string Q) (log : list Call),
     compute_dual (C := Engine.collaborators)
       (forget_sensitivity_dict (Engine.loop_at 0))
       (retain_sensitivity_dict (Engine.loop_at 0)) = Ok (dual, log)
     /\ dom dual = dom (forget_sensitivity_dict (Engine.loop_at 0)))
  /\ (exists name : string,
        compute_dual (C := Engine.collaborators)
          (forget_sensitivity_dict (Engine.loop_at 0)) Engine.retain_without_B
        = Raise (KeyError name)
        /\ name ∈ dom (forget_sensitivity_dict (Engine.loop_at 0))
        /\ name ∉ dom Engine.retain_without_B).
Proof.
  split.
  - apply (proj1 (compute_dual_key_error (C := Engine.collaborators)
                    (forget_sensitivity_dict (Engine.loop_at 0))
                    (retain_sensitivity_dict (Engine.loop_at 0)))).
    refine (bool_decide_unpack _ _). vm_compute. exact I.
  - assert (Hr : raises (compute_dual (C := Engine.collaborators)
                           (forget_sensitivity_dict (Engine.loop_at 0))
                           Engine.retain_without_B)
                 = Some (KeyError "B")) by (vm_compute; reflexivity).
    apply raises_Raise in Hr.
    destruct (proj2 (compute_dual_key_error (C := Engine.collaborators)
                       (forget_sensitivity_dict (Engine.loop_at 0))
                       Engine.retain_without_B) _ Hr)
      as (name & Hname & Hin & Hout).
    exists name. rewrite <- Hname. auto.
Defined.


Lemma batches_counted_once_witness :
  exists s' : Loop,
    run_epoch (C := Engine.collaborators) Engine.default_config
      (Some [Engine.forget_batch; Engine.forget_batch])
      [Engine.retain_batch; Engine.retain_batch] (Engine.loop_at 48) = Ok s'
    /\ total_batched_samples s'
       = 48 + Z.of_nat
                (count_calls (is_training_step_of Forget)
                   (emitted (Engine.loop_at 48) s')
                 + count_calls (is_training_step_of Retain)
                     (emitted (Engine.loop_at 48) s'))
    /\ (count_calls (is_training_step_of Forget) (emitted (Engine.loop_at 48) s')
        <= 2)%nat
    /\ (count_calls (is_training_step_of Retain) (emitted (Engine.loop_at 48) s')
        <= 2)%nat.
Proof.
  run (run_epoch (C := Engine.collaborators) Engine.default_config
         (Some [Engine.forget_batch; Engine.forget_batch])
         [Engine.retain_batch; Engine.retain_batch] (Engine.loop_at 48)) s' E.
  exists s'. split; [exact E|].
  exact (batches_counted_once (C := Engine.collaborators) _ _ _ _ _ E).
Defined.

Lemma global_step_at_most_one_per_batch_witness :
  exists s' : Loop,
    run_epoch (C := Engine.collaborators) Engine.default_config
      (Some [Engine.forget_batch; Engine.forget_batch])
      [Engine.retain_batch; Engine.retain_batch] (Engine.loop_at 48) = Ok s'
    /\ gradient_accumulation_steps Engine.default_config = 1
    /\ 48 <= global_step (state s')
    /\ global_step (state s') - 48 = total_batched_samples s' - 48.
Proof.
  run (run_epoch (C := Engine.collaborators) Engine.default_config
         (Some [Engine.forget_batch; Engine.forget_batch])
         [Engine.retain_batch; Engine.retain_batch] (Engine.loop_at 48)) s' E.
  destruct (global_step_at_most_one_per_batch (C := Engine.collaborators)
              Engine.default_config _ _ _ _ E) as (H1 & _ & H3).
  exists s'. split; [exact E|]. split; [reflexivity|]. split; [exact H1|].
  exact (H3 eq_refl).
Defined.

Lemma retain_pass_runs_after_forget_break_witness :
  exists s' : Loop,
    run_epoch (C := Engine.collaborators) Engine.default_config
      (Some [Engine.forget_batch; Engine.forget_batch])
      [Engine.retain_batch; Engine.retain_batch] (Engine.loop_at 100) = Ok s'
    /\ (1 <= count_calls (is_training_step_of Retain)
               (emitted (Engine.loop_at 100) s'))%nat.
Proof.
  run (run_epoch (C := Engine.collaborators) Engine.default_config
         (Some [Engine.forget_batch; Engine.forget_batch])
         [Engine.retain_batch; Engine.retain_batch] (Engine.loop_at 100)) s' E.
  exists s'. split; [exact E|].
  apply (proj1 (retain_pass_runs_after_forget_break (C := Engine.collaborators)
                  _ _ _ _ _ E)).
  discriminate.
Defined.

Lemma no_train_output_without_clipping_witness :
  exists s : Loop,
    clipping_enabled Engine.no_clipping_config = false
    /\ train (C := Engine.collaborators) Engine.no_clipping_config
         Engine.two_groups {| global_step := 0; max_steps := 100 |}
         (Some (fun _ => [Engine.forget_batch])) (fun _ => []) 1 = Ok s
    /\ train_output 5 s = Raise ZeroDivisionError.
Proof.
  run (train (C := Engine.collaborators) Engine.no_clipping_config
         Engine.two_groups {| global_step := 0; max_steps := 100 |}
         (Some (fun _ => [Engine.forget_batch])) (fun _ => []) 1) s E.
  exists s. split; [reflexivity|]. split; [exact E|].
  exact (no_train_output_without_clipping (C := Engine.collaborators)
           Engine.no_clipping_config Engine.two_groups
           {| global_step := 0; max_steps := 100 |} _ _ _ 5 s eq_refl eq_refl E).
Defined.

Lemma resume_past_planned_epochs_witness :
  exists (c : TrainingControl) (epochs_trained steps_trained : Z),
    training_control Engine.default_config Engine.three_epochs Engine.ten_batches
    = Control c
    /\ num_train_epochs c * num_update_steps_per_epoch c <= 30
    /\ resume_position Engine.default_config false 30
         (num_update_steps_per_epoch c) = Ok (epochs_trained, steps_trained)
    /\ resumed_epochs (C := Engine.collaborators) Engine.default_config None
         (fun _ => [Engine.retain_batch]) (Z.to_nat epochs_trained)
         (Z.to_nat (num_train_epochs c)) (Engine.loop_at 30)
       = Ok (Engine.loop_at 30).
Proof.
  destruct (training_control Engine.default_config Engine.three_epochs
              Engine.ten_batches) as [c|e|] eqn:Ec;
    [|vm_compute in Ec; discriminate|vm_compute in Ec; discriminate].
  assert (Hle : num_train_epochs c * num_update_steps_per_epoch c <= 30).
  { vm_compute in Ec. injection Ec as <-. vm_compute. discriminate. }
  assert (Hn : num_update_steps_per_epoch c = 10)
    by (vm_compute in Ec; injection Ec as <-; reflexivity).
  destruct (succeeds_Ok (resume_position Engine.default_config false 30
                           (num_update_steps_per_epoch c))) as [p Er];
    [rewrite Hn; vm_compute; reflexivity|].
  destruct p as [epochs_trained steps_trained].
  exists c, epochs_trained, steps_trained.
  split; [reflexivity|]. split; [exact Hle|]. split; [exact Er|].
  exact (resume_past_planned_epochs (C := Engine.collaborators)
           Engine.default_config Engine.three_epochs Engine.ten_batches c false
           30 epochs_trained steps_trained None (fun _ => [Engine.retain_batch])
           (Engine.loop_at 30) Ec Hle Er).
Defined.

Lemma optimizer_steps_on_retain_boundaries_only_witness :
  accumulation_boundary Engine.default_config
    (total_batched_samples (Engine.loop_at 47) + 1) 0 1 = Ok true
  /\ (exists s' : Loop,
        forget_iteration (C := Engine.collaborators) Engine.default_config 1 0
          Engine.forget_batch (Engine.loop_at 47) = Ok s'
        /\ count_calls is_optimizer_step (emitted (Engine.loop_at 47) s') = O
        /\ count_calls is_lr_scheduler_step (emitted (Engine.loop_at 47) s') = O
        /\ global_step (state s') = 47 + 1
        /\ retain_sensitivity_dict s'
           = retain_sensitivity_dict (Engine.loop_at 47))
  /\ (exists s' : Loop,
        retain_iteration (C := Engine.collaborators) Engine.default_config 1 0
          Engine.retain_batch (Engine.loop_at 47) = Ok s'
        /\ count_calls is_optimizer_step (emitted (Engine.loop_at 47) s') = 1%nat
        /\ count_calls is_lr_scheduler_step (emitted (Engine.loop_at 47) s')
           = 1%nat
        /\ global_step (state s') = 47 + 1).
Proof.
  assert (Hb : accumulation_boundary Engine.default_config
                 (total_batched_samples (Engine.loop_at 47) + 1) 0 1 = Ok true)
    by (vm_compute; reflexivity).
  split; [exact Hb|]. split.
  - run (forget_iteration (C := Engine.collaborators) Engine.default_config 1 0
           Engine.forget_batch (Engine.loop_at 47)) s' E.
    destruct (proj1 (optimizer_steps_on_retain_boundaries_only
                       (C := Engine.collaborators) Engine.default_config 1 0
                       Engine.forget_batch (Engine.loop_at 47) s' Hb) E)
      as (H1 & H2 & H3 & H4 & _).
    exists s'. auto.
  - run (retain_iteration (C := Engine.collaborators) Engine.default_config 1 0
           Engine.retain_batch (Engine.loop_at 47)) s' E.
    destruct (proj2 (optimizer_steps_on_retain_boundaries_only
                       (C := Engine.collaborators) Engine.default_config 1 0
                       Engine.retain_batch (Engine.loop_at 47) s' Hb) E)
      as (H1 & H2 & H3 & _).
    exists s'. auto.
Defined.

Lemma global_step_counts_both_streams_witness :
  (exists s' : Loop,
     forget_iteration (C := Engine.collaborators) Engine.default_config 1 0
       Engine.forget_batch (Engine.loop_at 49) = Ok s'
     /\ global_step (state s') = 49 + 1
     /\ schedule_steps (emitted (Engine.loop_at 49) s') = [49])
  /\ (exists (s' : Loop) (target : Q) (go : bool),
        retain_iteration (C := Engine.collaborators) Engine.default_config 1 0
          Engine.retain_batch (Engine.loop_at 50) = Ok s'
        /\ global_step (state s') = 50 + 1
        /\ schedule_steps (emitted (Engine.loop_at 50) s') = [50]
        /\ prune_gate Engine.default_config 50 target = Ok go
        /\ existsb is_prune (emitted (Engine.loop_at 50) s') = go)
  /\ (exists s' : Loop,
        run_epoch (C := Engine.collaborators) Engine.default_config
          (Some [Engine.forget_batch; Engine.forget_batch])
          [Engine.retain_batch; Engine.retain_batch] (Engine.loop_at 48) = Ok s'
        /\ (forall st : TrainerState,
               max_steps st = 100 -> global_step st <= 48 + 4 ->
               should_epoch_stop st = false /\ should_training_stop st = false)
        /\ count_calls (is_training_step_of Forget) (emitted (Engine.loop_at 48) s')
           = 2%nat
        /\ count_calls (is_training_step_of Retain) (emitted (Engine.loop_at 48) s')
           = 2%nat
        /\ global_step (state s') = 48 + 4).
Proof.
  split; [|split].
  - run (forget_iteration (C := Engine.collaborators) Engine.default_config 1 0
           Engine.forget_batch (Engine.loop_at 49)) s' E.
    assert (Hacc : accumulation_boundary Engine.default_config
                     (total_batched_samples (Engine.loop_at 49) + 1) 0 1 = Ok true)
      by (vm_compute; reflexivity).
    destruct (proj1 (global_step_counts_both_streams (C := Engine.collaborators)
                       Engine.default_config Forget 1 0 Engine.forget_batch
                       None [] (Engine.loop_at 49) s') E)
      as (b & Hb & Hg & Hs & _).
    rewrite Hacc in Hb. injection Hb as <-.
    exists s'. auto.
  - run (retain_iteration (C := Engine.collaborators) Engine.default_config 1 0
           Engine.retain_batch (Engine.loop_at 50)) s' E.
    assert (Hacc : accumulation_boundary Engine.default_config
                     (total_batched_samples (Engine.loop_at 50) + 1) 0 1 = Ok true)
      by (vm_compute; reflexivity).
    destruct (proj1 (global_step_counts_both_streams (C := Engine.collaborators)
                       Engine.default_config Retain 1 0 Engine.retain_batch
                       None [] (Engine.loop_at 50) s') E)
      as (b & Hb & Hg & Hs & Hgate).
    rewrite Hacc in Hb. injection Hb as <-.
    destruct (Hgate eq_refl eq_refl) as (target & go & _ & Hgo & Hex).
    exists s', target, go. auto.
  - run (run_epoch (C := Engine.collaborators) Engine.default_config
           (Some [Engine.forget_batch; Engine.forget_batch])
           [Engine.retain_batch; Engine.retain_batch] (Engine.loop_at 48)) s' E.
    assert (Hns : forall st : TrainerState,
               max_steps st = 100 -> global_step st <= 48 + 4 ->
               should_epoch_stop st = false /\ should_training_stop st = false).
    { intros st Hm Hg. split; [reflexivity|].
      change ((max_steps st <=? global_step st) = false).
      apply Z.leb_gt. lia. }
    destruct (proj2 (global_step_counts_both_streams (C := Engine.collaborators)
                       Engine.default_config Retain 1 0 Engine.retain_batch
                       (Some [Engine.forget_batch; Engine.forget_batch])
                       [Engine.retain_batch; Engine.retain_batch]
                       (Engine.loop_at 48) s') E)
      as (_ & _ & Hall).
    destruct (Hall Hns) as (Hf & Hr & Hone).
    exists s'. split; [exact E|]. split; [exact Hns|].
    split; [exact Hf|]. split; [exact Hr|]. exact (Hone eq_refl).
Defined.

End EdgesOnTheEngine.


Lemma resume_position_decomposes_witness :
  exists (c : TrainingControl) (epochs_trained steps_trained : Z),
    training_control Engine.default_config Engine.three_epochs Engine.ten_batches
    = Control c
    /\ resume_position Engine.default_config false 17
         (num_update_steps_per_epoch c) = Ok (epochs_trained, steps_trained)
    /\ epochs_trained * num_update_steps_per_epoch c <= 17
    /\ 17 < (epochs_trained + 1) * num_update_steps_per_epoch c
    /\ epochs_trained * num_update_steps_per_epoch c
         * gradient_accumulation_steps Engine.default_config + steps_trained
       = 17 * gradient_accumulation_steps Engine.default_config.
Proof.
  destruct (training_control Engine.default_config Engine.three_epochs
              Engine.ten_batches) as [c|e|] eqn:Ec;
    [|vm_compute in Ec; discriminate|vm_compute in Ec; discriminate].
  destruct (resume_position_decomposes Engine.default_config Engine.three_epochs
              Engine.ten_batches c false 17 Ec)
    as (epochs_trained & steps_trained & H1 & H2 & H3 & H4).
  exists c, epochs_trained, steps_trained. auto.
Defined.

Lemma epoch_progress_range_witness :
  epoch_progress 2 0 0 = Raise ZeroDivisionError
  /\ exists v : Q,
       epoch_progress 2 5 6 = Ok v
       /\ (inject_Z 2 < v)%Q
       /\ ((v <= inject_Z 2 + 1)%Q <-> 5 + 1 <= 6).
Proof.
  split.
  - exact (proj1 (epoch_progress_range 2 0 0) eq_refl).
  - exact (proj2 (epoch_progress_range 2 5 6) eq_refl ltac:(discriminate)).
Defined.
